(** * Audio Editor Pro backend: command orchestration and scratch-file lifecycle

    A shallow embedding of [backend/main.py].  The HTTP handlers shell out to
    an external audio tool; everything the handlers do to the outside world
    (spawning processes, writing and deleting files, drawing unique ids,
    logging) is threaded through an explicit [World], and everything the
    outside world answers (process outcomes, I/O faults, generated ids,
    library conversions) is read from an [Env] of oracles.  Handlers are
    written in a small state-and-exception monad whose combinators mirror
    Python's [raise], [try/except] and [try/finally]. *)

From Stdlib Require Import ZArith String Ascii List Bool Lia Floats.PrimFloat.
From Stdlib Require Floats.FloatAxioms Floats.SpecFloat.
From stdpp Require Import base strings gmap list.

Open Scope string_scope.
Open Scope Z_scope.

(** ** Storage roots and the file store *)

Definition UPLOAD_DIR : string := "uploads".
Definition OUTPUT_DIR : string := "outputs".
Definition TEMP_DIR : string := "temp".

(** [str(Path(dir) / name)] for a relative [name].  The store is keyed by
    path strings: aliasing between different spellings of one path is not
    modelled. *)
Definition path_join (dir name : string) : string := dir +:+ "/" +:+ name.

(** The file store: path to contents. *)
Abbreviation FS := (gmap string (list Byte.byte)).

(** ** Request models (the pydantic classes) *)

Record TrackData := {
  track_id : string;
  url : string;
  volume : float;
  muted : bool;
  solo : bool
}.

Record ExportMixRequest := {
  tracks : list TrackData;
  mix_format : string;
  mix_quality : string
}.

Record ExportTrackRequest := {
  track : TrackData;
  track_format : string;
  track_quality : string
}.

(** An uploaded multipart file: [filename] may be absent, and reading the
    body either yields its bytes or raises. *)
Record UploadFile := {
  filename : option string;
  upload_body : string + list Byte.byte
}.

(** ** Quality settings *)

Definition quality_map : gmap string (list string) :=
  <["high" := ["-b:a"; "320k"]]>
    (<["medium" := ["-b:a"; "192k"]]>
       (<["low" := ["-b:a"; "128k"]]> ∅)).

Definition get_quality_settings (format_type quality : string) : list string :=
  if String.eqb format_type "mp3" then
    default ["-b:a"; "192k"] (quality_map !! quality)
  else if String.eqb format_type "wav" then
    ["-acodec"; "pcm_s16le"]
  else [].

(** ** [str.replace] and the URL-to-path resolution *)

(** [old] empty: Python inserts [new] before every character and at the end. *)
Fixpoint interleave (new s : string) : string :=
  match s with
  | EmptyString => new
  | String c s' => new +:+ String c (interleave new s')
  end.

(** Left-to-right scan replacing non-overlapping occurrences of [old];
    [skip] counts the characters of the current occurrence still to drop.
    Strings are byte strings (a URL in UTF-8); an ASCII pattern occurs in
    the bytes exactly where it occurs in the text. *)
Fixpoint replace_from (skip : nat) (old new s : string) : string :=
  match s with
  | EmptyString => EmptyString
  | String c s' =>
      match skip with
      | S k => replace_from k old new s'
      | O =>
          if String.prefix old s
          then new +:+ replace_from (String.length old - 1) old new s'
          else String c (replace_from 0 old new s')
      end
  end.

Definition str_replace (s old new : string) : string :=
  match old with
  | EmptyString => interleave new s
  | _ => replace_from 0 old new s
  end.

(** [track.url.replace("/uploads/", "uploads/").replace("/outputs/", "outputs/")] *)
Definition resolve_track_path (track_url : string) : string :=
  str_replace (str_replace track_url "/uploads/" "uploads/") "/outputs/" "outputs/".


Fixpoint has_char (c : ascii) (s : string) : bool :=
  match s with
  | EmptyString => false
  | String a s' => Ascii.eqb a c || has_char c s'
  end.

(** ** Active-track selection of the mix export *)

Definition solo_tracks (ts : list TrackData) : list TrackData :=
  List.filter solo ts.

Definition active_tracks (ts : list TrackData) : list TrackData :=
  match solo_tracks ts with
  | [] => List.filter (fun t => negb (muted t)) ts
  | _ :: _ => solo_tracks ts
  end.

(** ** The outside world *)

(** What [subprocess.run] did: the child ran to completion with a return
    code, or the call raised. *)
Inductive ProcOutcome :=
| Completed (returncode : Z)
| RaisesTimeoutExpired
| RaisesFileNotFoundError
| RaisesOther (text : string).

(** What [open(path, "wb")] followed by [write(content)] did. *)
Inductive WriteOutcome :=
| WriteOk
| WriteFailsBeforeCreate (text : string)
| WriteFailsAfterCreate (written : list Byte.byte) (text : string).

(** Answers of the operating system and of the Python library. *)
Record Env := {
  uuid4 : nat → string;                 (* [str(uuid.uuid4())], n-th draw *)
  path_suffix : string → string;        (* [Path(name).suffix] *)
  str_float : float → string;           (* [str(x)] of a float *)
  subprocess_run : list string → Z → FS → ProcOutcome * FS;
  open_write : string → list Byte.byte → FS → WriteOutcome;
  unlink_error : string → FS → option string
}.

Definition with_unlink_error (f : string → FS → option string) (env : Env) : Env :=
  {| uuid4 := uuid4 env;
     path_suffix := path_suffix env;
     str_float := str_float env;
     subprocess_run := subprocess_run env;
     open_write := open_write env;
     unlink_error := f |}.

Inductive Level := INFO | WARNING | ERROR.

(** Everything a handler does to the outside world, in order. *)
Inductive Event :=
| EvLog (level : Level) (message : string)
| EvSpawn (command : list string) (timeout : Z)
| EvWrite (path : string)
| EvUnlink (path : string).

Record World := {
  fs : FS;
  uuid_count : nat;
  trace : list Event
}.

Definition start (store : FS) (n : nat) : World :=
  {| fs := store; uuid_count := n; trace := [] |}.

Definition record_event (ev : Event) (w : World) : World :=
  {| fs := fs w; uuid_count := uuid_count w; trace := trace w ++ [ev] |}.

Definition set_fs (store : FS) (w : World) : World :=
  {| fs := store; uuid_count := uuid_count w; trace := trace w |}.

(** ** Exceptions and the handler monad *)

Inductive Exn :=
| HTTPException (status_code : Z) (detail : string)
| PyException (text : string).

Inductive Result (A : Type) :=
| Returns (a : A)
| Raises (e : Exn).
Arguments Returns {A} a.
Arguments Raises {A} e.

Definition M (A : Type) : Type := World → Result A * World.

#[global] Instance M_ret : MRet M := λ A a w, (Returns a, w).

#[global] Instance M_bind : MBind M := λ A B f m w,
  match m w with
  | (Returns a, w') => f a w'
  | (Raises e, w') => (Raises e, w')
  end.

Definition raise {A} (e : Exn) : M A := λ w, (Raises e, w).

(** [try: body / except ... as e: handler e] *)
Definition catch {A} (body : M A) (handler : Exn → M A) : M A := λ w,
  match body w with
  | (Returns a, w') => (Returns a, w')
  | (Raises e, w') => handler e w'
  end.

(** [try: body / finally: final]; an exception of [final] replaces the
    outcome of [body]. *)
Definition try_finally {A} (body : M A) (final : M unit) : M A := λ w,
  match body w with
  | (r, w') =>
      match final w' with
      | (Returns _, w'') => (r, w'')
      | (Raises e, w'') => (Raises e, w'')
      end
  end.

Definition emit (ev : Event) : M unit := λ w, (Returns tt, record_event ev w).

Definition log (level : Level) (message : string) : M unit :=
  emit (EvLog level message).

(** [path.exists()] *)
Definition path_exists (p : string) : M bool := λ w,
  (Returns (bool_decide (is_Some (fs w !! p))), w).

(** [not path.exists() or path.stat().st_size == 0] *)
Definition missing_or_empty (store : FS) (p : string) : bool :=
  match store !! p with
  | None => true
  | Some content => Nat.eqb (length content) 0
  end.

Definition output_missing_or_empty (p : string) : M bool := λ w,
  (Returns (missing_or_empty (fs w) p), w).

(** [await file.read()] *)
Definition read_upload (file : UploadFile) : M (list Byte.byte) :=
  match upload_body file with
  | inr content => mret content
  | inl text => raise (PyException text)
  end.

Definition Payload : Type := list (string * string).

(** ** Operations that consult the environment, and the handlers *)

Section Backend.
Variable env : Env.

Definition fresh_uuid : M string := λ w,
  (Returns (uuid4 env (uuid_count w)),
   {| fs := fs w; uuid_count := S (uuid_count w); trace := trace w |}).

(** [subprocess.run(command, capture_output=True, text=True, timeout=...)] *)
Definition run_process (command : list string) (timeout : Z) : M ProcOutcome := λ w,
  match subprocess_run env command timeout (fs w) with
  | (outcome, store) =>
      (Returns outcome, set_fs store (record_event (EvSpawn command timeout) w))
  end.

(** [with open(path, "wb") as buffer: buffer.write(content)] *)
Definition write_file (p : string) (content : list Byte.byte) : M unit := λ w,
  let w1 := record_event (EvWrite p) w in
  match open_write env p content (fs w) with
  | WriteOk => (Returns tt, set_fs (<[p := content]> (fs w)) w1)
  | WriteFailsBeforeCreate text => (Raises (PyException text), w1)
  | WriteFailsAfterCreate written text =>
      (Raises (PyException text), set_fs (<[p := written]> (fs w)) w1)
  end.

(** [path.unlink()] *)
Definition unlink (p : string) : M unit := λ w,
  let w1 := record_event (EvUnlink p) w in
  match fs w !! p with
  | None => (Raises (PyException "FileNotFoundError"), w1)
  | Some _ =>
      match unlink_error env p (fs w) with
      | None => (Returns tt, set_fs (delete p (fs w)) w1)
      | Some text => (Raises (PyException text), w1)
      end
  end.

Definition ffmpeg_unavailable : Exn :=
  HTTPException 500 "FFmpeg is not available. Please install FFmpeg.".

Definition check_ffmpeg : M bool :=
  result ← run_process ["ffmpeg"; "-version"] 10;
  match result with
  | Completed returncode => mret (returncode =? 0)
  | RaisesFileNotFoundError | RaisesTimeoutExpired => mret false
  | RaisesOther text => raise (PyException text)
  end.

Definition run_ffmpeg_command (command : list string) (timeout : Z) : M bool :=
  catch
    (log INFO "Running FFmpeg command";;
     result ← run_process command timeout;
     match result with
     | Completed 0 =>
         log INFO "FFmpeg command completed successfully";;
         mret true
     | Completed _ =>                      (* check=True: CalledProcessError *)
         log ERROR "FFmpeg error";;
         mret false
     | RaisesTimeoutExpired =>
         log ERROR "FFmpeg command timed out";;
         mret false
     | RaisesFileNotFoundError | RaisesOther _ =>
         log ERROR "Command execution error";;
         mret false
     end)
    (λ _, log ERROR "Command execution error";; mret false).

(** [Path(file.filename).suffix if file.filename else '.wav'] *)
Definition upload_suffix (file : UploadFile) : string :=
  match filename file with
  | Some (String c name) => path_suffix env (String c name)
  | Some EmptyString | None => ".wav"
  end.

Definition scratch_path (file : UploadFile) (n : nat) : string :=
  path_join TEMP_DIR ("input_" +:+ uuid4 env n +:+ upload_suffix file).

Definition cleanup_warning : string := "Failed to cleanup temp file".

(** The [finally] block of the upload handlers; only [cut_audio] logs the
    successful removal. *)
Definition cleanup_temp (announce : bool) (temp_input : string) : M unit :=
  present ← path_exists temp_input;
  if present : bool then
    catch
      (unlink temp_input;;
       if announce then log INFO "Cleaned up temp file" else mret tt)
      (λ _, log WARNING cleanup_warning)
  else mret tt.

(** [except HTTPException: raise / except Exception as e: ...] *)
Definition reraise_or_500 (what : string) (e : Exn) : M Payload :=
  match e with
  | HTTPException _ _ => raise e
  | PyException text =>
      log ERROR (what +:+ " failed");;
      raise (HTTPException 500 (what +:+ " failed: " +:+ text))
  end.

(** *** /cut *)

Definition cut_command (temp_input : string) (start_time duration : float)
    (output_path : string) : list string :=
  ["ffmpeg"; "-i"; temp_input;
   "-ss"; str_float env start_time;
   "-t"; str_float env duration;
   "-acodec"; "pcm_s16le";
   "-ar"; "44100";
   "-ac"; "2";
   "-y"; output_path].

Definition cut_body (file : UploadFile) (start_time end_time : float)
    (temp_input : string) : M Payload :=
  content ← read_upload file;
  write_file temp_input content;;
  log INFO "Temporary file saved";;
  u ← fresh_uuid;
  let output_filename := "cut_" +:+ u +:+ ".wav" in
  let output_path := path_join OUTPUT_DIR output_filename in
  let duration := PrimFloat.sub end_time start_time in
  let command := cut_command temp_input start_time duration output_path in
  success ← run_ffmpeg_command command 120;
  if negb success then
    raise (HTTPException 500 "Failed to cut audio. Please check the audio file format.")
  else
    bad ← output_missing_or_empty output_path;
    if bad : bool then
      raise (HTTPException 500 "Cut operation produced empty file")
    else
      log INFO "Audio cut successfully";;
      mret [("url", "/outputs/" +:+ output_filename)].

Definition cut_audio (file : UploadFile) (start_time end_time : float) : M Payload :=
  log INFO "Cutting audio";;
  available ← check_ffmpeg;
  if negb available then raise ffmpeg_unavailable
  else if PrimFloat.leb end_time start_time then
    raise (HTTPException 400 "Start time must be less than end time")
  else if PrimFloat.ltb start_time PrimFloat.zero then
    raise (HTTPException 400 "Start time cannot be negative")
  else
    u ← fresh_uuid;
    let temp_input := path_join TEMP_DIR ("input_" +:+ u +:+ upload_suffix file) in
    try_finally
      (catch (cut_body file start_time end_time temp_input)
             (reraise_or_500 "Cut operation"))
      (cleanup_temp true temp_input).

(** *** /fade *)

Definition fade_command (temp_input fade_filter output_path : string) : list string :=
  ["ffmpeg"; "-i"; temp_input;
   "-af"; fade_filter;
   "-acodec"; "pcm_s16le";
   "-ar"; "44100";
   "-ac"; "2";
   "-y"; output_path].

Definition fade_body (file : UploadFile) (fade_type : string) (duration : float)
    (temp_input : string) : M Payload :=
  content ← read_upload file;
  write_file temp_input content;;
  u ← fresh_uuid;
  let output_filename := "fade_" +:+ fade_type +:+ "_" +:+ u +:+ ".wav" in
  let output_path := path_join OUTPUT_DIR output_filename in
  let fade_filter :=
    if String.eqb fade_type "in"
    then "afade=t=in:d=" +:+ str_float env duration
    else "afade=t=out:d=" +:+ str_float env duration in
  let command := fade_command temp_input fade_filter output_path in
  success ← run_ffmpeg_command command 120;
  if negb success then
    raise (HTTPException 500 "Failed to apply fade effect")
  else
    bad ← output_missing_or_empty output_path;
    if bad : bool then
      raise (HTTPException 500 "Fade operation produced empty file")
    else
      log INFO "Fade effect applied successfully";;
      mret [("url", "/outputs/" +:+ output_filename)].

Definition apply_fade (file : UploadFile) (fade_type : string) (duration : float)
    : M Payload :=
  log INFO "Applying fade";;
  available ← check_ffmpeg;
  if negb available then raise ffmpeg_unavailable
  else if negb (String.eqb fade_type "in" || String.eqb fade_type "out") then
    raise (HTTPException 400 "Fade type must be 'in' or 'out'")
  else if PrimFloat.leb duration PrimFloat.zero then
    raise (HTTPException 400 "Fade duration must be positive")
  else
    u ← fresh_uuid;
    let temp_input := path_join TEMP_DIR ("input_" +:+ u +:+ upload_suffix file) in
    try_finally
      (catch (fade_body file fade_type duration temp_input)
             (reraise_or_500 "Fade operation"))
      (cleanup_temp false temp_input).

(** *** /separate/vocal-music *)

Definition vocal_command (temp_input vocal_path : string) : list string :=
  ["ffmpeg"; "-i"; temp_input;
   "-af"; "pan=mono|c0=0.5*c0+-0.5*c1";
   "-acodec"; "pcm_s16le";
   "-ar"; "44100";
   "-y"; vocal_path].

Definition music_command (temp_input music_path : string) : list string :=
  ["ffmpeg"; "-i"; temp_input;
   "-af"; "pan=stereo|c0=c0|c1=c1";
   "-acodec"; "pcm_s16le";
   "-ar"; "44100";
   "-ac"; "2";
   "-y"; music_path].

Definition vocal_music_body (file : UploadFile) (temp_input : string) : M Payload :=
  content ← read_upload file;
  write_file temp_input content;;
  u1 ← fresh_uuid;
  let vocal_filename := "vocal_" +:+ u1 +:+ ".wav" in
  let vocal_path := path_join OUTPUT_DIR vocal_filename in
  u2 ← fresh_uuid;
  let music_filename := "music_" +:+ u2 +:+ ".wav" in
  let music_path := path_join OUTPUT_DIR music_filename in
  vocal_success ← run_ffmpeg_command (vocal_command temp_input vocal_path) 180;
  music_success ← run_ffmpeg_command (music_command temp_input music_path) 180;
  if negb (vocal_success && music_success) then
    raise (HTTPException 500 "Failed to separate audio tracks")
  else
    vocal_present ← path_exists vocal_path;
    music_present ← path_exists music_path;
    if negb vocal_present || negb music_present then
      raise (HTTPException 500 "Separation produced empty files")
    else
      log INFO "Vocal/music separation completed successfully";;
      mret [("vocal", "/outputs/" +:+ vocal_filename);
            ("music", "/outputs/" +:+ music_filename)].

Definition separate_vocal_music (file : UploadFile) : M Payload :=
  log INFO "Starting vocal/music separation";;
  available ← check_ffmpeg;
  if negb available then raise ffmpeg_unavailable
  else
    u ← fresh_uuid;
    let temp_input := path_join TEMP_DIR ("input_" +:+ u +:+ upload_suffix file) in
    try_finally
      (catch (vocal_music_body file temp_input) (reraise_or_500 "Separation"))
      (cleanup_temp false temp_input).

(** *** /separate/instruments *)

Definition band_command (temp_input band_filter output_path : string) : list string :=
  ["ffmpeg"; "-i"; temp_input;
   "-af"; band_filter;
   "-acodec"; "pcm_s16le";
   "-ar"; "44100";
   "-ac"; "2";
   "-y"; output_path].

Definition vocals_filter : string := "highpass=f=200,lowpass=f=3000".
Definition drums_filter : string := "highpass=f=1000".
Definition bass_filter : string := "lowpass=f=250".
Definition other_filter : string := "highpass=f=250,lowpass=f=1000".

(** [for cmd, name in commands: if run_ffmpeg_command(cmd, timeout=180): success_count += 1 ...] *)
Fixpoint run_bands (commands : list (list string * string)) (success_count : nat)
    : M nat :=
  match commands with
  | [] => mret success_count
  | (cmd, name) :: rest =>
      ok ← run_ffmpeg_command cmd 180;
      if ok : bool then
        log INFO (name +:+ " separation completed");;
        run_bands rest (S success_count)
      else
        log ERROR (name +:+ " separation failed");;
        run_bands rest success_count
  end.

Definition band_commands (temp_input vocals_path drums_path bass_path other_path : string)
    : list (list string * string) :=
  [(band_command temp_input vocals_filter vocals_path, "vocals");
   (band_command temp_input drums_filter drums_path, "drums");
   (band_command temp_input bass_filter bass_path, "bass");
   (band_command temp_input other_filter other_path, "other")].

Definition instruments_body (file : UploadFile) (temp_input : string) : M Payload :=
  content ← read_upload file;
  write_file temp_input content;;
  u1 ← fresh_uuid;
  let vocals_filename := "vocals_" +:+ u1 +:+ ".wav" in
  u2 ← fresh_uuid;
  let drums_filename := "drums_" +:+ u2 +:+ ".wav" in
  u3 ← fresh_uuid;
  let bass_filename := "bass_" +:+ u3 +:+ ".wav" in
  u4 ← fresh_uuid;
  let other_filename := "other_" +:+ u4 +:+ ".wav" in
  let commands :=
    band_commands temp_input
      (path_join OUTPUT_DIR vocals_filename) (path_join OUTPUT_DIR drums_filename)
      (path_join OUTPUT_DIR bass_filename) (path_join OUTPUT_DIR other_filename) in
  success_count ← run_bands commands 0%nat;
  if Nat.ltb success_count 4 then
    raise (HTTPException 500 "Failed to separate some instruments")
  else
    log INFO "Advanced instrument separation completed successfully";;
    mret [("vocals", "/outputs/" +:+ vocals_filename);
          ("drums", "/outputs/" +:+ drums_filename);
          ("bass", "/outputs/" +:+ bass_filename);
          ("other", "/outputs/" +:+ other_filename)].

Definition separate_instruments (file : UploadFile) : M Payload :=
  log INFO "Starting advanced instrument separation";;
  available ← check_ffmpeg;
  if negb available then raise ffmpeg_unavailable
  else
    u ← fresh_uuid;
    let temp_input := path_join TEMP_DIR ("input_" +:+ u +:+ upload_suffix file) in
    try_finally
      (catch (instruments_body file temp_input) (reraise_or_500 "Instrument separation"))
      (cleanup_temp false temp_input).

(** *** /export/mix and /export/track *)

Definition export_command (track_path volume_filter : string)
    (quality_settings : list string) (output_path : string) : list string :=
  ["ffmpeg"; "-i"; track_path; "-af"; volume_filter]
    ++ quality_settings ++ ["-y"; output_path].

Definition volume_filter_of (t : TrackData) : string :=
  "volume=" +:+ str_float env (volume t).

Definition export_mix_body (request : ExportMixRequest) : M Payload :=
  match active_tracks (tracks request) with
  | [] => raise (HTTPException 400 "No active tracks to export")
  | first_track :: _ =>
      u ← fresh_uuid;
      let output_filename := "mix_" +:+ u +:+ "." +:+ mix_format request in
      let output_path := path_join OUTPUT_DIR output_filename in
      let track_path := resolve_track_path (url first_track) in
      present ← path_exists track_path;
      if negb present then
        raise (HTTPException 404 "Source track file not found")
      else
        let quality_settings :=
          get_quality_settings (mix_format request) (mix_quality request) in
        let command :=
          export_command track_path (volume_filter_of first_track)
            quality_settings output_path in
        success ← run_ffmpeg_command command 180;
        if negb success then
          raise (HTTPException 500 "Failed to export mix")
        else
          bad ← output_missing_or_empty output_path;
          if bad : bool then
            raise (HTTPException 500 "Export produced empty file")
          else
            log INFO "Mix exported successfully";;
            mret [("url", "/outputs/" +:+ output_filename)]
  end.

Definition export_mix (request : ExportMixRequest) : M Payload :=
  log INFO "Exporting mix";;
  available ← check_ffmpeg;
  if negb available then raise ffmpeg_unavailable
  else catch (export_mix_body request) (reraise_or_500 "Export").

Definition export_track_body (request : ExportTrackRequest) : M Payload :=
  let t := track request in
  let track_path := resolve_track_path (url t) in
  present ← path_exists track_path;
  if negb present then
    raise (HTTPException 404 "Source track file not found")
  else
    u ← fresh_uuid;
    let output_filename := "track_" +:+ u +:+ "." +:+ track_format request in
    let output_path := path_join OUTPUT_DIR output_filename in
    let quality_settings :=
      get_quality_settings (track_format request) (track_quality request) in
    let command :=
      export_command track_path (volume_filter_of t) quality_settings output_path in
    success ← run_ffmpeg_command command 180;
    if negb success then
      raise (HTTPException 500 "Failed to export track")
    else
      bad ← output_missing_or_empty output_path;
      if bad : bool then
        raise (HTTPException 500 "Export produced empty file")
      else
        log INFO "Track exported successfully";;
        mret [("url", "/outputs/" +:+ output_filename)].

Definition export_track (request : ExportTrackRequest) : M Payload :=
  log INFO "Exporting single track";;
  available ← check_ffmpeg;
  if negb available then raise ffmpeg_unavailable
  else catch (export_track_body request) (reraise_or_500 "Track export").

End Backend.

(** ** Observations on a run *)

Definition ffmpeg_version : list string := ["ffmpeg"; "-version"].

(** The answer of the availability probe in a given store, and the store the
    probe process leaves behind. *)
Definition engine_available (env : Env) (store : FS) : Result bool :=
  (check_ffmpeg env (start store 0)).1.

Definition probe_store (env : Env) (store : FS) : FS :=
  (subprocess_run env ffmpeg_version 10 store).2.

(** The trace without its log lines: processes spawned, files written and
    files unlinked, in order. *)
Definition is_action (ev : Event) : bool :=
  match ev with
  | EvLog _ _ => false
  | _ => true
  end.

Definition actions (tr : list Event) : list Event := List.filter is_action tr.

(** Postcondition reading of a run: [Q] holds of the outcome and the final
    world of [m] started in [w]. *)
Definition wp {A} (m : M A) (w : World) (Q : Result A → World → Prop) : Prop :=
  Q (m w).1 (m w).2.

(** A handler stopped at the availability guard: the distinct error, and
    nothing done beyond the probe itself. *)
Definition fails_fast (env : Env) (store : FS) (n : nat) (handler : M Payload) : Prop :=
  wp handler (start store n) (λ r w',
    r = Raises ffmpeg_unavailable
    ∧ actions (trace w') = [EvSpawn ffmpeg_version 10]
    ∧ fs w' = probe_store env store
    ∧ uuid_count w' = n).

(** The postcondition a bind hands to its first computation. *)
Definition bind_post {A B} (f : A → M B) (Q : Result B → World → Prop)
    : Result A → World → Prop :=
  λ r w,
    match r with
    | Returns a => wp (f a) w Q
    | Raises e => Q (Raises e) w
    end.

(** The boolean [run_ffmpeg_command] answers for an outcome of
    [subprocess.run], and the line it logs last. *)
Definition exit_ok (o : ProcOutcome) : bool :=
  match o with
  | Completed 0 => true
  | _ => false
  end.

Definition outcome_log (o : ProcOutcome) : Event :=
  match o with
  | Completed 0 => EvLog INFO "FFmpeg command completed successfully"
  | Completed _ => EvLog ERROR "FFmpeg error"
  | RaisesTimeoutExpired => EvLog ERROR "FFmpeg command timed out"
  | RaisesFileNotFoundError | RaisesOther _ => EvLog ERROR "Command execution error"
  end.

(** Names for what the export handlers compute inline, for a request that
    draws the [n]-th unique id. *)
Definition mix_output_name (env : Env) (n : nat) (request : ExportMixRequest) : string :=
  "mix_" +:+ uuid4 env n +:+ "." +:+ mix_format request.

Definition mix_command (env : Env) (n : nat) (request : ExportMixRequest)
    (t : TrackData) : list string :=
  export_command (resolve_track_path (url t)) (volume_filter_of env t)
    (get_quality_settings (mix_format request) (mix_quality request))
    (path_join OUTPUT_DIR (mix_output_name env n request)).



(** The response of an export once its command has run: success only for a
    zero exit and a non-empty output file. *)
Definition export_response (failure : string) (run : ProcOutcome * FS)
    (output_name : string) : Result Payload :=
  if exit_ok run.1 then
    if missing_or_empty run.2 (path_join OUTPUT_DIR output_name)
    then Raises (HTTPException 500 "Export produced empty file")
    else Returns [("url", "/outputs/" +:+ output_name)]
  else Raises (HTTPException 500 failure).

(** The scratch file at [p] is gone, or its deletion failed and the failure
    was logged. *)
Definition scratch_released (p : string) (w : World) : Prop :=
  fs w !! p = None ∨ In (EvLog WARNING cleanup_warning) (trace w).

(** What an upload handler owes its scratch file [p]: if the run wrote it,
    then at return it is released, and it is gone outright when deletion
    cannot fail; and the response does not depend on how deletion fares. *)
Definition releases_scratch (handler : Env → M Payload) (env : Env)
    (store : FS) (n : nat) (p : string) : Prop :=
  wp (handler env) (start store n) (λ r w',
    In (EvWrite p) (trace w') →
    scratch_released p w'
    ∧ ((∀ st, unlink_error env p st = None) → fs w' !! p = None))
  ∧ (∀ f, (handler (with_unlink_error f env) (start store n)).1
          = (handler env (start store n)).1).

(** The commands of a multi-leg split run in order, each on the store the
    previous one left: the success flag of every leg, and the final store. *)
Fixpoint band_results (env : Env) (commands : list (list string * string)) (store : FS)
    : list bool * FS :=
  match commands with
  | [] => ([], store)
  | (cmd, _) :: rest =>
      let run := subprocess_run env cmd 180 store in
      (exit_ok run.1 :: (band_results env rest run.2).1,
       (band_results env rest run.2).2)
  end.

Definition count_ok (flags : list bool) : nat :=
  length (List.filter (λ b : bool, b) flags).

Definition spawn_of (c : list string * string) : Event := EvSpawn c.1 180.



(** A property of a handler run, asked of each of the six transformation
    endpoints and all their requests. *)
Definition at_every_endpoint (P : M Payload → Prop) (env : Env) : Prop :=
  (∀ file s e, P (cut_audio env file s e))
  ∧ (∀ file fade_type duration, P (apply_fade env file fade_type duration))
  ∧ (∀ file, P (separate_vocal_music env file))
  ∧ (∀ file, P (separate_instruments env file))
  ∧ (∀ request, P (export_mix env request))
  ∧ (∀ request, P (export_track env request)).

(** The engine-unavailable error is told apart from every other outcome:
    a run that ends in it had a negative probe. *)
Definition not_guard_error {A} (r : Result A) (w : World) : Prop :=
  r ≠ Raises ffmpeg_unavailable.

Definition guard_only_error (env : Env) (store : FS) (n : nat) (handler : M Payload)
    : Prop :=
  wp handler (start store n) (λ r w',
    r = Raises ffmpeg_unavailable → engine_available env store = Returns false).





(** ** Concrete environments for running the model *)

Definition demo_uuid (n : nat) : string :=
  String (ascii_of_nat (97 + n)) "-0000".

Definition demo_str_float (x : float) : string :=
  if PrimFloat.eqb x 5%float then "5.0"
  else if PrimFloat.eqb x 3%float then "3.0"
  else if PrimFloat.eqb x 2%float then "2.0"
  else if PrimFloat.eqb x (-2)%float then "-2.0"
  else "1.0".

Definition demo_env (tool : list string → Z → FS → ProcOutcome * FS) : Env :=
  {| uuid4 := demo_uuid;
     path_suffix := λ _, ".mp3";
     str_float := demo_str_float;
     subprocess_run := tool;
     open_write := λ _ _ _, WriteOk;
     unlink_error := λ _ _, None |}.

(** The same, on a disk where unlinking always fails. *)
Definition demo_env_undeletable (tool : list string → Z → FS → ProcOutcome * FS) : Env :=
  with_unlink_error (λ _ _, Some "PermissionError") (demo_env tool).

(** The same, on a disk where every write fails half way. *)
Definition demo_env_disk_full (tool : list string → Z → FS → ProcOutcome * FS) : Env :=
  {| uuid4 := demo_uuid;
     path_suffix := λ _, ".mp3";
     str_float := demo_str_float;
     subprocess_run := tool;
     open_write := λ _ _ _, WriteFailsAfterCreate [Byte.x52] "OSError: No space left on device";
     unlink_error := λ _ _, None |}.

Definition is_probe (command : list string) : bool :=
  bool_decide (command = ffmpeg_version).

Definition some_audio : list Byte.byte := [Byte.x52; Byte.x49; Byte.x46; Byte.x46].

(** No executable on the path. *)
Definition tool_missing (command : list string) (timeout : Z) (store : FS)
    : ProcOutcome * FS :=
  (RaisesFileNotFoundError, store).

(** A working tool: writes its last argument and exits 0. *)
Definition tool_working (command : list string) (timeout : Z) (store : FS)
    : ProcOutcome * FS :=
  if is_probe command then (Completed 0, store)
  else (Completed 0, <[List.last command "" := some_audio]> store).

(** Exits 0 on every command and writes nothing. *)
Definition tool_silent (command : list string) (timeout : Z) (store : FS)
    : ProcOutcome * FS :=
  (Completed 0, store).

(** Exits 0 and leaves a zero-byte output. *)
Definition tool_hollow (command : list string) (timeout : Z) (store : FS)
    : ProcOutcome * FS :=
  if is_probe command then (Completed 0, store)
  else (Completed 0, <[List.last command "" := []]> store).

(** Answers the probe, fails every transformation. *)
Definition tool_failing (command : list string) (timeout : Z) (store : FS)
    : ProcOutcome * FS :=
  if is_probe command then (Completed 0, store) else (Completed 1, store).

(** Works except on the drums band, where it exits 1. *)
Definition tool_no_drums (command : list string) (timeout : Z) (store : FS)
    : ProcOutcome * FS :=
  if is_probe command then (Completed 0, store)
  else if bool_decide ("highpass=f=1000" ∈ command)
       then (Completed 1, store)
       else (Completed 0, <[List.last command "" := some_audio]> store).

Definition demo_file : UploadFile :=
  {| filename := Some "song.mp3"; upload_body := inr some_audio |}.

Definition demo_track (track_url : string) (is_muted is_solo : bool) : TrackData :=
  {| track_id := "t"; url := track_url; volume := 2%float;
     muted := is_muted; solo := is_solo |}.

(** ** /upload *)

(** The JSON object of a stored upload. *)
Record UploadResponse := {
  upload_id : string;
  upload_url : string;
  upload_filename : string;
  upload_size : nat
}.

(** [with open(file_path, "wb") as buffer: content = await file.read();
    buffer.write(content)]: the file is opened, and so created, before the
    body is read.  When the read raises inside the block, what has happened
    to the store is the opening alone, which is the writing of nothing. *)
Definition store_upload (env : Env) (file_path : string) (file : UploadFile)
    : M (list Byte.byte) :=
  match upload_body file with
  | inr content => write_file env file_path content;; mret content
  | inl text => λ w,
      let w1 := record_event (EvWrite file_path) w in
      match open_write env file_path [] (fs w) with
      | WriteFailsBeforeCreate open_text => (Raises (PyException open_text), w1)
      | _ => (Raises (PyException text), set_fs (<[file_path := []]> (fs w)) w1)
      end
  end.

(** [not file.content_type or not file.content_type.startswith('audio/')] *)
Definition not_audio (content_type : option string) : bool :=
  match content_type with
  | Some ct => negb (String.prefix "audio/" ct)
  | None => true
  end.

Definition upload_file (env : Env) (content_type : option string) (file : UploadFile)
    : M UploadResponse :=
  log INFO "Uploading file";;
  if not_audio content_type then
    log WARNING "Invalid file type";;
    raise (HTTPException 400 "File must be an audio file")
  else
    file_id ← fresh_uuid env;
    let file_extension := upload_suffix env file in
    let filename := file_id +:+ file_extension in
    let file_path := path_join UPLOAD_DIR filename in
    catch
      (content ← store_upload env file_path file;
       log INFO "File saved successfully";;
       mret {| upload_id := file_id;
               upload_url := "/uploads/" +:+ filename;
               upload_filename := filename;
               upload_size := length content |})
      (λ e,
         log ERROR "Failed to save file";;
         raise (HTTPException 500
                  ("Failed to save file: "
                   +:+ match e with
                       | PyException text => text
                       | HTTPException _ detail => detail
                       end))).

(** ** Further observations *)

(** The writes and unlinks of a trace all concern the path [p]. *)
Definition touches_only (p : string) (tr : list Event) : Prop :=
  Forall (λ ev, match ev with
                | EvWrite q | EvUnlink q => q = p
                | _ => True
                end) (actions tr).

(** The trace holds no write and no unlink at all. *)
Definition touches_nothing (tr : list Event) : Prop :=
  Forall (λ ev, match ev with
                | EvWrite _ | EvUnlink _ => False
                | _ => True
                end) (actions tr).

(** No occurrence of [pattern] in [s], at any position. *)
Definition no_occurrence (pattern s : string) : Prop :=
  ∀ before after, s ≠ before +:+ pattern +:+ after.


(** A tool that refuses to start for a reason other than a missing
    executable. *)
Definition tool_forbidden (command : list string) (timeout : Z) (store : FS)
    : ProcOutcome * FS :=
  (RaisesOther "PermissionError", store).

Definition demo_file_unreadable : UploadFile :=
  {| filename := Some "song.mp3"; upload_body := inl "ClientDisconnect" |}.

(** The name an upload is stored under when it draws the [n]-th unique id,
    and the path of the stored file. *)
Definition stored_name (env : Env) (file : UploadFile) (n : nat) : string :=
  uuid4 env n +:+ upload_suffix env file.

Definition upload_target (env : Env) (file : UploadFile) (n : nat) : string :=
  path_join UPLOAD_DIR (stored_name env file n).

(** The error [upload_file] turns every exception of its [try] block into. *)
Definition save_failure (text : string) : Exn :=
  HTTPException 500 ("Failed to save file: " +:+ text).

(** Postconditions: the handler itself wrote and unlinked at [p] only, or
    nowhere.  What a spawned tool does to the store is not an event of the
    handler. *)
Definition keeps_to {A} (p : string) : Result A → World → Prop :=
  λ _ w, touches_only p (trace w).

Definition keeps_off {A} : Result A → World → Prop :=
  λ _ w, touches_nothing (trace w).

(** Postcondition: the [n]-th unique id has been drawn. *)
Definition drew_id {A} (n : nat) : Result A → World → Prop :=
  λ _ w, (n < uuid_count w)%nat.

(** Postcondition of a request that started at draw [n]: if it wrote its
    scratch file, no request that starts where this one ended, up to draw
    [bound], gets the same scratch path again. *)
Definition later_scratch_differs (env : Env) (file : UploadFile) (n bound : nat)
    : Result Payload → World → Prop :=
  λ _ w', In (EvWrite (scratch_path env file n)) (trace w') →
          ∀ file' m, (uuid_count w' ≤ m ≤ bound)%nat →
                     scratch_path env file' m ≠ scratch_path env file n.

(** Whether [pattern] occurs in [s], decided. *)
Fixpoint occurs (pattern s : string) : bool :=
  String.prefix pattern s
  || match s with
     | EmptyString => false
     | String _ rest => occurs pattern rest
     end.

(** * Properties *)

(** ** Running the monad *)

Lemma wp_bind {A B} (m : M A) (f : A → M B) w Q :
  wp m w (bind_post f Q) → wp (m ≫= f) w Q.
Proof.
  unfold wp, bind_post, mbind, M_bind.
  destruct (m w) as [[a|e] w']; trivial.
Qed.

Lemma wp_ret {A} (a : A) w (Q : Result A → World → Prop) :
  Q (Returns a) w → wp (mret a) w Q.
Proof. trivial. Qed.

Lemma wp_raise {A} (e : Exn) w (Q : Result A → World → Prop) :
  Q (Raises e) w → wp (raise e) w Q.
Proof. trivial. Qed.

Lemma wp_log level message w (Q : Result unit → World → Prop) :
  Q (Returns tt) (record_event (EvLog level message) w) → wp (log level message) w Q.
Proof. trivial. Qed.

Lemma wp_eq {A} (m : M A) w r w' (Q : Result A → World → Prop) :
  m w = (r, w') → Q r w' → wp m w Q.
Proof. unfold wp. intros ->. trivial. Qed.

Lemma wp_catch {A} (body : M A) handler w (Q : Result A → World → Prop) :
  wp body w (λ r w',
    match r with
    | Returns a => Q (Returns a) w'
    | Raises e => wp (handler e) w' Q
    end) →
  wp (catch body handler) w Q.
Proof.
  unfold wp, catch. destruct (body w) as [[a|e] w']; trivial.
Qed.

Lemma wp_mono {A} (m : M A) w (Q Q' : Result A → World → Prop) :
  wp m w Q → (∀ r w', Q r w' → Q' r w') → wp m w Q'.
Proof. unfold wp. auto. Qed.

Lemma actions_app tr1 tr2 : actions (tr1 ++ tr2) = (actions tr1 ++ actions tr2)%list.
Proof. apply List.filter_app. Qed.

Section BackendFacts.
Variable env : Env.

Lemma wp_fresh_uuid w (Q : Result string → World → Prop) :
  Q (Returns (uuid4 env (uuid_count w)))
    {| fs := fs w; uuid_count := S (uuid_count w); trace := trace w |} →
  wp (fresh_uuid env) w Q.
Proof. trivial. Qed.

Lemma wp_path_exists p w (Q : Result bool → World → Prop) :
  Q (Returns (bool_decide (is_Some (fs w !! p)))) w → wp (path_exists p) w Q.
Proof. trivial. Qed.

Lemma wp_output_missing_or_empty p w (Q : Result bool → World → Prop) :
  Q (Returns (missing_or_empty (fs w) p)) w → wp (output_missing_or_empty p) w Q.
Proof. trivial. Qed.

Lemma run_process_eq command timeout w :
  run_process env command timeout w =
  (Returns (subprocess_run env command timeout (fs w)).1,
   set_fs (subprocess_run env command timeout (fs w)).2
          (record_event (EvSpawn command timeout) w)).
Proof.
  unfold run_process. destruct (subprocess_run env command timeout (fs w)); reflexivity.
Qed.

(** The probe: its answer depends on the store only, and it leaves one
    spawn event. *)
Lemma check_ffmpeg_eq w :
  check_ffmpeg env w =
  (engine_available env (fs w),
   set_fs (probe_store env (fs w)) (record_event (EvSpawn ffmpeg_version 10) w)).
Proof.
  unfold engine_available, probe_store, check_ffmpeg, mbind, M_bind, ffmpeg_version.
  rewrite !run_process_eq. cbn [fs start].
  destruct (subprocess_run env ["ffmpeg"; "-version"] 10 (fs w)) as [o st].
  destruct o; reflexivity.
Qed.

Lemma wp_check_ffmpeg w (Q : Result bool → World → Prop) :
  Q (engine_available env (fs w))
    (set_fs (probe_store env (fs w)) (record_event (EvSpawn ffmpeg_version 10) w)) →
  wp (check_ffmpeg env) w Q.
Proof. intros H. eapply wp_eq; [apply check_ffmpeg_eq | exact H]. Qed.

(** Closed form of the transform invoker. *)
Lemma run_ffmpeg_command_eq command timeout w :
  run_ffmpeg_command env command timeout w =
  (Returns (exit_ok (subprocess_run env command timeout (fs w)).1),
   {| fs := (subprocess_run env command timeout (fs w)).2;
      uuid_count := uuid_count w;
      trace := trace w ++ [EvLog INFO "Running FFmpeg command";
                           EvSpawn command timeout;
                           outcome_log (subprocess_run env command timeout (fs w)).1] |}).
Proof.
  unfold run_ffmpeg_command, catch, mbind, M_bind, log, emit.
  rewrite run_process_eq. cbn [fs record_event].
  destruct (subprocess_run env command timeout (fs w)) as [o st]. cbn [fst snd].
  unfold set_fs, record_event; cbn [fs uuid_count trace].
  destruct o as [rc| | |text]; [destruct rc | | |];
    cbn; rewrite <- ?app_assoc; reflexivity.
Qed.

Lemma wp_run_ffmpeg_command command timeout w (Q : Result bool → World → Prop) :
  Q (Returns (exit_ok (subprocess_run env command timeout (fs w)).1))
    {| fs := (subprocess_run env command timeout (fs w)).2;
       uuid_count := uuid_count w;
       trace := trace w ++ [EvLog INFO "Running FFmpeg command";
                            EvSpawn command timeout;
                            outcome_log (subprocess_run env command timeout (fs w)).1] |} →
  wp (run_ffmpeg_command env command timeout) w Q.
Proof. intros H. eapply wp_eq; [apply run_ffmpeg_command_eq | exact H]. Qed.

End BackendFacts.

(** ** Stepping through a handler *)

Ltac wp_norm :=
  cbn beta iota delta
    [bind_post fs trace uuid_count record_event set_fs start fst snd
     reraise_or_500 negb].

Ltac wp_step :=
  lazymatch goal with
  | |- wp (mbind _ _) _ _ => apply wp_bind
  | |- wp (mret _) _ _ => apply wp_ret
  | |- wp (raise _) _ _ => apply wp_raise
  | |- wp (log _ _) _ _ => apply wp_log
  | |- wp (fresh_uuid _) _ _ => apply wp_fresh_uuid
  | |- wp (path_exists _) _ _ => apply wp_path_exists
  | |- wp (output_missing_or_empty _) _ _ => apply wp_output_missing_or_empty
  | |- wp (check_ffmpeg _) _ _ => apply wp_check_ffmpeg
  | |- wp (run_ffmpeg_command _ _ _) _ _ => apply wp_run_ffmpeg_command
  | |- wp (catch _ _) _ _ => apply wp_catch
  end; wp_norm.

Ltac wp_steps := repeat wp_step.

(** Every handler opens the same way: one log line, then the probe. *)
Ltac wp_guard Hprobe :=
  wp_step; wp_step; wp_step; wp_step; rewrite Hprobe; wp_norm.

(** ** The transform invoker *)

(** C7: for every argument list and timeout, [run_ffmpeg_command] returns a
    boolean and never raises; the boolean is [true] exactly when the child
    ran to completion with return code 0, and [false] on a non-zero exit,
    on a timeout and on any other exception of [subprocess.run]. *)
Theorem run_ffmpeg_command_returns_bool (env : Env) command timeout w :
  ∃ b w', run_ffmpeg_command env command timeout w = (Returns b, w')
    ∧ (b = true ↔ (subprocess_run env command timeout (fs w)).1 = Completed 0)
    ∧ (∀ rc, (subprocess_run env command timeout (fs w)).1 = Completed rc →
             rc ≠ 0 → b = false)
    ∧ ((subprocess_run env command timeout (fs w)).1 = RaisesTimeoutExpired →
       b = false)
    ∧ ((subprocess_run env command timeout (fs w)).1 = RaisesFileNotFoundError →
       b = false)
    ∧ (∀ text, (subprocess_run env command timeout (fs w)).1 = RaisesOther text →
               b = false).
Proof.
  eexists _, _. split; [apply run_ffmpeg_command_eq|].
  destruct (subprocess_run env command timeout (fs w)).1 as [rc| | |text] eqn:E;
    cbn [exit_ok].
  - destruct rc; repeat split; intros; congruence.
  - repeat split; intros; congruence.
  - repeat split; intros; congruence.
  - repeat split; intros; congruence.
Qed.

(** X21: the invoker spawns exactly the command it was given, with the
    timeout it was given, once, whatever the outcome: a failed or timed-out
    command is not retried, and the invoker writes and unlinks nothing
    itself. *)
Lemma run_ffmpeg_command_actions (env : Env) command timeout w :
  actions (trace (run_ffmpeg_command env command timeout w).2) =
  (actions (trace w) ++ [EvSpawn command timeout])%list.
Proof.
  rewrite run_ffmpeg_command_eq. cbn [snd trace].
  rewrite actions_app. f_equal.
  destruct (subprocess_run env command timeout (fs w)).1 as [[| |]| | |]; reflexivity.
Qed.

(** ** Quality settings *)

(** C8: the quality table: mp3/high is 320k, mp3/medium is 192k, mp3/low is
    128k, mp3 with any other tier falls back to 192k, and wav is 16-bit
    signed PCM whatever the tier. *)
Theorem quality_table :
  get_quality_settings "mp3" "high" = ["-b:a"; "320k"]
  ∧ get_quality_settings "mp3" "medium" = ["-b:a"; "192k"]
  ∧ get_quality_settings "mp3" "low" = ["-b:a"; "128k"]
  ∧ (∀ tier, tier ≠ "high" → tier ≠ "medium" → tier ≠ "low" →
             get_quality_settings "mp3" tier = ["-b:a"; "192k"])
  ∧ (∀ tier, get_quality_settings "wav" tier = ["-acodec"; "pcm_s16le"]).
Proof.
  repeat split; try reflexivity.
  intros tier Hh Hm Hl. unfold get_quality_settings, quality_map. cbn [String.eqb Ascii.eqb Bool.eqb].
  rewrite !lookup_insert_ne, lookup_empty by congruence. reflexivity.
Qed.

Example quality_ultra_falls_back :
  get_quality_settings "mp3" "ultra" = ["-b:a"; "192k"].
Proof. reflexivity. Qed.


(** ** The availability guard *)

Section Guard.
Variable env : Env.
Variables (store : FS) (n : nat).
Hypothesis probe_negative : engine_available env store = Returns false.

Ltac guard_closed :=
  unfold fails_fast; intros; wp_guard probe_negative; wp_step; auto.

Lemma cut_audio_guard file s e : fails_fast env store n (cut_audio env file s e).
Proof. unfold cut_audio. guard_closed. Qed.

Lemma apply_fade_guard file fade_type duration :
  fails_fast env store n (apply_fade env file fade_type duration).
Proof. unfold apply_fade. guard_closed. Qed.

Lemma separate_vocal_music_guard file :
  fails_fast env store n (separate_vocal_music env file).
Proof. unfold separate_vocal_music. guard_closed. Qed.

Lemma separate_instruments_guard file :
  fails_fast env store n (separate_instruments env file).
Proof. unfold separate_instruments. guard_closed. Qed.

Lemma export_mix_guard request : fails_fast env store n (export_mix env request).
Proof. unfold export_mix. guard_closed. Qed.

Lemma export_track_guard request : fails_fast env store n (export_track env request).
Proof. unfold export_track. guard_closed. Qed.

End Guard.

Lemma every_endpoint_fails_fast (env : Env) (store : FS) (n : nat) :
  engine_available env store = Returns false →
  at_every_endpoint (fails_fast env store n) env.
Proof.
  intros Hprobe.
  refine (conj _ (conj _ (conj _ (conj _ (conj _ _))))); intros.
  - by apply cut_audio_guard.
  - by apply apply_fade_guard.
  - by apply separate_vocal_music_guard.
  - by apply separate_instruments_guard.
  - by apply export_mix_guard.
  - by apply export_track_guard.
Qed.

(** ** Validation of the cut window *)




(** ** The export handlers *)

Lemma is_action_outcome_log o : is_action (outcome_log o) = false.
Proof. destruct o as [[| |]| | |]; reflexivity. Qed.

Ltac trace_norm :=
  rewrite ?actions_app; cbn [actions List.filter is_action app];
  rewrite ?is_action_outcome_log; cbn [app].

Section ExportFacts.
Variable env : Env.
Variables (store : FS) (n : nat).
Hypothesis probe_positive : engine_available env store = Returns true.

Lemma export_mix_no_active request :
  active_tracks (tracks request) = [] →
  wp (export_mix env request) (start store n) (λ r w',
    r = Raises (HTTPException 400 "No active tracks to export")
    ∧ actions (trace w') = [EvSpawn ffmpeg_version 10]
    ∧ fs w' = probe_store env store).
Proof.
  intros Hact. unfold export_mix. wp_guard probe_positive.
  wp_step. unfold export_mix_body. rewrite Hact.
  wp_step. wp_step. trace_norm; auto.
Qed.

(** Closed form of a mix export with a non-empty active set. *)
Lemma export_mix_run request t rest :
  active_tracks (tracks request) = t :: rest →
  let command := mix_command env n request t in
  let run := subprocess_run env command 180 (probe_store env store) in
  wp (export_mix env request) (start store n) (λ r w',
    if bool_decide (is_Some (probe_store env store !! resolve_track_path (url t))) then
      actions (trace w') = [EvSpawn ffmpeg_version 10; EvSpawn command 180]
      ∧ fs w' = run.2
      ∧ r = export_response "Failed to export mix" run (mix_output_name env n request)
    else
      r = Raises (HTTPException 404 "Source track file not found")
      ∧ actions (trace w') = [EvSpawn ffmpeg_version 10]
      ∧ fs w' = probe_store env store).
Proof.
  intros Hact command run. unfold export_mix. wp_guard probe_positive.
  wp_step. unfold export_mix_body. rewrite Hact.
  wp_step. wp_step. wp_step. wp_step.
  destruct (bool_decide (is_Some (probe_store env store !! resolve_track_path (url t))));
    wp_norm.
  - wp_step. wp_step.
    fold (mix_output_name env n request). fold (mix_command env n request t).
    fold command. fold run. unfold export_response.
    destruct (exit_ok run.1); wp_norm.
    + wp_step. wp_step. destruct (missing_or_empty run.2 _); wp_norm.
      * wp_step. wp_step. trace_norm; auto.
      * wp_step. wp_step. wp_step. trace_norm; auto.
    + wp_step. wp_step. trace_norm; auto.
  - wp_step. wp_step. trace_norm; auto.
Qed.


End ExportFacts.

(** ** Active-track selection *)

Lemma active_tracks_with_solo ts :
  (∃ t, In t ts ∧ solo t = true) → active_tracks ts = List.filter solo ts.
Proof.
  intros (t & Hin & Hsolo). unfold active_tracks, solo_tracks.
  destruct (List.filter solo ts) eqn:Hf; [|reflexivity].
  assert (In t (List.filter solo ts)) as Hin' by (apply List.filter_In; auto).
  rewrite Hf in Hin'. destruct Hin'.
Qed.

Lemma active_tracks_without_solo ts :
  (∀ t, In t ts → solo t = false) →
  active_tracks ts = List.filter (λ t, negb (muted t)) ts.
Proof.
  intros Hnone. unfold active_tracks, solo_tracks.
  destruct (List.filter solo ts) as [|t rest] eqn:Hf; [reflexivity|].
  assert (In t (List.filter solo ts)) as Hin by (rewrite Hf; left; reflexivity).
  apply List.filter_In in Hin as [Hin Hsolo].
  rewrite (Hnone t Hin) in Hsolo. discriminate.
Qed.

(** The head of a filtered list is the first element, in input order, that
    passes the test. *)
Lemma filter_head {A} (f : A → bool) (l : list A) x rest :
  List.filter f l = x :: rest →
  ∃ before after, l = (before ++ x :: after)%list
                  ∧ f x = true
                  ∧ Forall (λ y, f y = false) before.
Proof.
  induction l as [|a l IH]; cbn [List.filter]; [discriminate|].
  destruct (f a) eqn:Hfa.
  - intros [= -> _]. exists [], l. auto.
  - intros H. destruct (IH H) as (before & after & -> & Hx & Hb).
    exists (a :: before), after. auto.
Qed.

Example active_solo_overrides :
  let t1 := demo_track "/uploads/1.wav" false false in
  let t2 := demo_track "/uploads/2.wav" false true in
  let t3 := demo_track "/uploads/3.wav" true false in
  active_tracks [t1; t2; t3] = [t2].
Proof. reflexivity. Qed.

Example active_without_solo :
  let t1 := demo_track "/uploads/1.wav" false false in
  let t2 := demo_track "/uploads/2.wav" true false in
  active_tracks [t1; t2] = [t1].
Proof. reflexivity. Qed.




(** X20: the first active track is the first one in the order of the
    request: every track listed before it is outside the active set. *)
Lemma first_active_in_input_order ts t rest :
  active_tracks ts = t :: rest →
  ∃ before after, ts = (before ++ t :: after)%list
                  ∧ Forall (λ x, ¬ In x (active_tracks ts)) before.
Proof.
  unfold active_tracks, solo_tracks.
  destruct (List.filter solo ts) as [|s0 srest] eqn:Hsolo; intros Hact.
  - destruct (filter_head _ _ _ _ Hact) as (before & after & Hts & _ & Hbefore).
    exists before, after. split; [exact Hts|].
    eapply Forall_impl; [exact Hbefore|].
    cbn beta. intros x Hx Hin. apply List.filter_In in Hin as [_ Hin]. congruence.
  - rewrite <- Hsolo in Hact.
    destruct (filter_head _ _ _ _ Hact) as (before & after & Hts & _ & Hbefore).
    exists before, after. split; [exact Hts|].
    eapply Forall_impl; [exact Hbefore|].
    cbn beta. intros x Hx Hin. rewrite <- Hsolo in Hin.
    apply List.filter_In in Hin as [_ Hin]. congruence.
Qed.

(** ** Unrecognized export formats *)






(** ** The scratch file *)

Lemma wp_try_finally {A} (body : M A) final w (Q : Result A → World → Prop) :
  wp body w (λ r w1,
    wp final w1 (λ rf w2,
      match rf with
      | Returns _ => Q r w2
      | Raises e => Q (Raises e) w2
      end)) →
  wp (try_finally body final) w Q.
Proof.
  unfold wp, try_finally. destruct (body w) as [r w1]. cbn [fst snd].
  destruct (final w1) as [[[]|e] w2]; trivial.
Qed.

(** The [finally] block never raises: a failed deletion is swallowed. *)
Lemma cleanup_temp_returns env announce p w :
  (cleanup_temp env announce p w).1 = Returns tt.
Proof.
  unfold cleanup_temp, mbind, M_bind, path_exists, catch, unlink, log, emit.
  cbn [fs record_event].
  destruct (fs w !! p) eqn:Hp.
  - rewrite bool_decide_eq_true_2 by eauto.
    cbn. rewrite Hp.
    destruct (unlink_error env p (fs w)); [reflexivity|].
    destruct announce; reflexivity.
  - rewrite bool_decide_eq_false_2 by (intros [? ?]; congruence). reflexivity.
Qed.

Lemma cleanup_temp_releases env announce p w :
  scratch_released p (cleanup_temp env announce p w).2
  ∧ ((∀ st, unlink_error env p st = None) →
     fs (cleanup_temp env announce p w).2 !! p = None).
Proof.
  unfold scratch_released, cleanup_temp, mbind, M_bind, path_exists, catch,
    unlink, log, emit.
  cbn [fs record_event].
  destruct (fs w !! p) eqn:Hp.
  - rewrite bool_decide_eq_true_2 by eauto.
    cbn. rewrite Hp.
    destruct (unlink_error env p (fs w)) eqn:Hu.
    + cbn. split; [right; rewrite !in_app_iff; cbn; auto|].
      intros H. rewrite H in Hu. discriminate.
    + destruct announce; cbn; rewrite lookup_delete_eq; auto.
  - rewrite bool_decide_eq_false_2 by (intros [? ?]; congruence). cbn. auto.
Qed.

(** Cleanup touches no other path, and its only action is the unlink. *)
Lemma cleanup_temp_frame env announce p w :
  (∀ q, q ≠ p → fs (cleanup_temp env announce p w).2 !! q = fs w !! q)
  ∧ uuid_count (cleanup_temp env announce p w).2 = uuid_count w
  ∧ (actions (trace (cleanup_temp env announce p w).2) = actions (trace w)
     ∨ actions (trace (cleanup_temp env announce p w).2)
       = (actions (trace w) ++ [EvUnlink p])%list).
Proof.
  unfold cleanup_temp, mbind, M_bind, path_exists, catch, unlink, log, emit.
  cbn [fs record_event].
  destruct (fs w !! p) eqn:Hp.
  - rewrite bool_decide_eq_true_2 by eauto.
    cbn. rewrite Hp.
    destruct (unlink_error env p (fs w)) eqn:Hu.
    + cbn. split; [auto|]. split; [reflexivity|].
      right. rewrite !actions_app. cbn. by rewrite app_nil_r.
    + destruct announce; cbn.
      * split; [intros q Hq; by rewrite lookup_delete_ne|]. split; [reflexivity|].
        right. rewrite !actions_app. cbn. by rewrite app_nil_r.
      * split; [intros q Hq; by rewrite lookup_delete_ne|]. split; [reflexivity|].
        right. rewrite !actions_app. reflexivity.
  - rewrite bool_decide_eq_false_2 by (intros [? ?]; congruence). cbn. auto.
Qed.

Lemma try_finally_cleanup_result {A} env (m : M A) announce p w :
  (try_finally m (cleanup_temp env announce p) w).1 = (m w).1.
Proof.
  unfold try_finally. destruct (m w) as [r w1].
  pose proof (cleanup_temp_returns env announce p w1) as H.
  destruct (cleanup_temp env announce p w1) as [rf w2]. cbn in H. subst rf.
  reflexivity.
Qed.

Lemma try_finally_cleanup_world {A} env (m : M A) announce p w :
  (try_finally m (cleanup_temp env announce p) w).2
  = (cleanup_temp env announce p (m w).2).2.
Proof.
  unfold try_finally. destruct (m w) as [r w1]. cbn [fst snd].
  pose proof (cleanup_temp_returns env announce p w1) as H.
  destruct (cleanup_temp env announce p w1) as [rf w2]. cbn in H. subst rf.
  reflexivity.
Qed.

Lemma try_finally_cleanup_releases {A} env (m : M A) announce p w :
  scratch_released p (try_finally m (cleanup_temp env announce p) w).2
  ∧ ((∀ st, unlink_error env p st = None) →
     fs (try_finally m (cleanup_temp env announce p) w).2 !! p = None).
Proof. rewrite try_finally_cleanup_world. apply cleanup_temp_releases. Qed.

Lemma bind_result_ext {A B} (m : M A) (f g : A → M B) w :
  (∀ a w', (f a w').1 = (g a w').1) → ((m ≫= f) w).1 = ((m ≫= g) w).1.
Proof.
  intros H. unfold mbind, M_bind.
  destruct (m w) as [[a|e] w']; [apply H|reflexivity].
Qed.

(** Up to the acquisition of the scratch path a run writes nothing. *)
Ltac no_write_yet := cbn; intuition discriminate.

Lemma cut_audio_releases env store n file s e :
  releases_scratch (λ env, cut_audio env file s e) env store n (scratch_path env file n).
Proof.
  split.
  - unfold cut_audio. wp_step. wp_step. wp_step. wp_step.
    destruct (engine_available env store) as [[|]|]; wp_norm.
    + destruct (PrimFloat.leb e s). { wp_step. no_write_yet. }
      destruct (PrimFloat.ltb s PrimFloat.zero). { wp_step. no_write_yet. }
      wp_step. wp_step. intros _. apply try_finally_cleanup_releases.
    + wp_step. no_write_yet.
    + no_write_yet.
  - intros f. unfold cut_audio. apply bind_result_ext; intros _ w1.
    apply (bind_result_ext (check_ffmpeg env)); intros available w2.
    destruct available; cbn [negb]; [|reflexivity].
    destruct (PrimFloat.leb e s); [reflexivity|].
    destruct (PrimFloat.ltb s PrimFloat.zero); [reflexivity|].
    apply (bind_result_ext (fresh_uuid env)); intros u w3.
    rewrite !try_finally_cleanup_result. reflexivity.
Qed.

Lemma apply_fade_releases env store n file fade_type duration :
  releases_scratch (λ env, apply_fade env file fade_type duration) env store n
    (scratch_path env file n).
Proof.
  split.
  - unfold apply_fade. wp_step. wp_step. wp_step. wp_step.
    destruct (engine_available env store) as [[|]|]; wp_norm.
    + destruct (String.eqb fade_type "in" || String.eqb fade_type "out"); wp_norm.
      2: { wp_step. no_write_yet. }
      destruct (PrimFloat.leb duration PrimFloat.zero). { wp_step. no_write_yet. }
      wp_step. wp_step. intros _. apply try_finally_cleanup_releases.
    + wp_step. no_write_yet.
    + no_write_yet.
  - intros f. unfold apply_fade. apply bind_result_ext; intros _ w1.
    apply (bind_result_ext (check_ffmpeg env)); intros available w2.
    destruct available; cbn [negb]; [|reflexivity].
    destruct (String.eqb fade_type "in" || String.eqb fade_type "out");
      cbn [negb]; [|reflexivity].
    destruct (PrimFloat.leb duration PrimFloat.zero); [reflexivity|].
    apply (bind_result_ext (fresh_uuid env)); intros u w3.
    rewrite !try_finally_cleanup_result. reflexivity.
Qed.

Lemma separate_vocal_music_releases env store n file :
  releases_scratch (λ env, separate_vocal_music env file) env store n
    (scratch_path env file n).
Proof.
  split.
  - unfold separate_vocal_music. wp_step. wp_step. wp_step. wp_step.
    destruct (engine_available env store) as [[|]|]; wp_norm.
    + wp_step. wp_step. intros _. apply try_finally_cleanup_releases.
    + wp_step. no_write_yet.
    + no_write_yet.
  - intros f. unfold separate_vocal_music. apply bind_result_ext; intros _ w1.
    apply (bind_result_ext (check_ffmpeg env)); intros available w2.
    destruct available; cbn [negb]; [|reflexivity].
    apply (bind_result_ext (fresh_uuid env)); intros u w3.
    rewrite !try_finally_cleanup_result. reflexivity.
Qed.

Lemma separate_instruments_releases env store n file :
  releases_scratch (λ env, separate_instruments env file) env store n
    (scratch_path env file n).
Proof.
  split.
  - unfold separate_instruments. wp_step. wp_step. wp_step. wp_step.
    destruct (engine_available env store) as [[|]|]; wp_norm.
    + wp_step. wp_step. intros _. apply try_finally_cleanup_releases.
    + wp_step. no_write_yet.
    + no_write_yet.
  - intros f. unfold separate_instruments. apply bind_result_ext; intros _ w1.
    apply (bind_result_ext (check_ffmpeg env)); intros available w2.
    destruct available; cbn [negb]; [|reflexivity].
    apply (bind_result_ext (fresh_uuid env)); intros u w3.
    rewrite !try_finally_cleanup_result. reflexivity.
Qed.

(** C2: for each upload-based endpoint (cut, fade, vocal/music split,
    4-band split) and every behaviour of the outside world, a run that wrote
    its scratch input file ends with that file gone from the store unless
    the deletion itself failed, in which case the failure is logged as a
    warning and swallowed; the response is the same whatever the deletion
    does. *)
Theorem scratch_input_released (env : Env) (store : FS) (n : nat) (file : UploadFile) :
  (∀ s e, releases_scratch (λ env, cut_audio env file s e) env store n
            (scratch_path env file n))
  ∧ (∀ fade_type duration,
       releases_scratch (λ env, apply_fade env file fade_type duration) env store n
         (scratch_path env file n))
  ∧ releases_scratch (λ env, separate_vocal_music env file) env store n
      (scratch_path env file n)
  ∧ releases_scratch (λ env, separate_instruments env file) env store n
      (scratch_path env file n).
Proof.
  refine (conj _ (conj _ (conj _ _))); intros.
  - apply cut_audio_releases.
  - apply apply_fade_releases.
  - apply separate_vocal_music_releases.
  - apply separate_instruments_releases.
Qed.

Lemma scratch_input_released_witness :
  let out := separate_vocal_music (demo_env tool_failing) demo_file (start ∅ 0) in
  out.1 = Raises (HTTPException 500 "Failed to separate audio tracks")
  ∧ In (EvWrite "temp/input_a-0000.mp3") (trace out.2)
  ∧ fs out.2 !! "temp/input_a-0000.mp3" = None.
Proof.
  cbv zeta.
  pose proof (scratch_input_released (demo_env tool_failing) ∅ 0 demo_file)
    as (_ & _ & [Hrun _] & _).
  unfold wp in Hrun.
  assert (In (EvWrite "temp/input_a-0000.mp3")
            (trace (separate_vocal_music (demo_env tool_failing) demo_file
                      (start ∅ 0)).2)) as Hwrote
    by (vm_compute; auto 10).
  split; [vm_compute; reflexivity|]. split; [exact Hwrote|].
  exact (proj2 (Hrun Hwrote) (λ _, eq_refl)).
Defined.

(** Four ways out of [cut_audio], run on concrete worlds: a normal return,
    a failed invocation, a write fault, and a deletion fault.  Only in the
    last one does the scratch file survive, with the warning logged and the
    response unchanged. *)
Example cut_exit_normal :
  let out := cut_audio (demo_env tool_working) demo_file 3 5 (start ∅ 0) in
  out.1 = Returns [("url", "/outputs/cut_b-0000.wav")]
  ∧ In (EvWrite "temp/input_a-0000.mp3") (trace out.2)
  ∧ fs out.2 !! "temp/input_a-0000.mp3" = None.
Proof. vm_compute. auto 10. Qed.

Example cut_exit_invoker_failure :
  let out := cut_audio (demo_env tool_failing) demo_file 3 5 (start ∅ 0) in
  out.1 = Raises (HTTPException 500
                    "Failed to cut audio. Please check the audio file format.")
  ∧ In (EvWrite "temp/input_a-0000.mp3") (trace out.2)
  ∧ fs out.2 !! "temp/input_a-0000.mp3" = None.
Proof. vm_compute. auto 10. Qed.

Example cut_exit_write_fault :
  let out := cut_audio (demo_env_disk_full tool_working) demo_file 3 5 (start ∅ 0) in
  out.1 = Raises (HTTPException 500
                    "Cut operation failed: OSError: No space left on device")
  ∧ In (EvWrite "temp/input_a-0000.mp3") (trace out.2)
  ∧ fs out.2 !! "temp/input_a-0000.mp3" = None.
Proof. vm_compute. auto 10. Qed.

Example cut_exit_deletion_fault :
  let out := cut_audio (demo_env_undeletable tool_working) demo_file 3 5 (start ∅ 0) in
  out.1 = Returns [("url", "/outputs/cut_b-0000.wav")]
  ∧ fs out.2 !! "temp/input_a-0000.mp3" = Some some_audio
  ∧ In (EvLog WARNING cleanup_warning) (trace out.2).
Proof. vm_compute. auto 20. Qed.

(** ** The 4-band split *)

Lemma actions_log_only tr level message :
  actions (tr ++ [EvLog level message]) = actions tr.
Proof. rewrite actions_app. cbn. apply app_nil_r. Qed.

(** The loop over the band commands never stops early: whatever the
    outcomes, every command is spawned, in order, and the count grows by the
    number of zero exits. *)
Lemma run_bands_eq env commands : ∀ k w,
  ∃ w', run_bands env commands k w
        = (Returns (k + count_ok (band_results env commands (fs w)).1)%nat, w')
    ∧ fs w' = (band_results env commands (fs w)).2
    ∧ uuid_count w' = uuid_count w
    ∧ actions (trace w') = (actions (trace w) ++ List.map spawn_of commands)%list.
Proof.
  induction commands as [|[cmd name] rest IH]; intros k w.
  - exists w. cbn. rewrite Nat.add_0_r, app_nil_r. auto.
  - cbn [run_bands band_results List.map fst snd].
    unfold mbind at 1, M_bind at 1. rewrite run_ffmpeg_command_eq.
    set (run := subprocess_run env cmd 180 (fs w)).
    destruct (exit_ok run.1) eqn:Hok.
    + unfold mbind at 1, M_bind at 1, log, emit. cbn [fst snd].
      match goal with |- context [run_bands env rest (S k) ?w1] =>
        destruct (IH (S k) w1) as (w' & Heq & Hfs & Hu & Hact) end.
      exists w'. rewrite Heq. cbn [fs uuid_count trace record_event] in *.
      repeat split; auto.
      * f_equal. f_equal. unfold count_ok. cbn. lia.
      * rewrite Hact. rewrite !actions_app. cbn. rewrite is_action_outcome_log.
        cbn. rewrite app_nil_r, <- app_assoc. reflexivity.
    + unfold mbind at 1, M_bind at 1, log, emit. cbn [fst snd].
      match goal with |- context [run_bands env rest k ?w1] =>
        destruct (IH k w1) as (w' & Heq & Hfs & Hu & Hact) end.
      exists w'. rewrite Heq. cbn [fs uuid_count trace record_event] in *.
      repeat split; auto.
      rewrite Hact. rewrite !actions_app. cbn. rewrite is_action_outcome_log.
      cbn. rewrite app_nil_r, <- app_assoc. reflexivity.
Qed.

Lemma wp_run_bands env commands k w (Q : Result nat → World → Prop) :
  (∀ w', fs w' = (band_results env commands (fs w)).2 →
         uuid_count w' = uuid_count w →
         actions (trace w') = (actions (trace w) ++ List.map spawn_of commands)%list →
         Q (Returns (k + count_ok (band_results env commands (fs w)).1)%nat) w') →
  wp (run_bands env commands k) w Q.
Proof.
  intros H. destruct (run_bands_eq env commands k w) as (w' & Heq & Hfs & Hu & Hact).
  eapply wp_eq; [exact Heq|]. by apply H.
Qed.

Lemma wp_read_upload_ok file content w (Q : Result (list Byte.byte) → World → Prop) :
  upload_body file = inr content → Q (Returns content) w → wp (read_upload file) w Q.
Proof. unfold wp, read_upload. intros ->. trivial. Qed.

Lemma wp_write_file_ok env p content w (Q : Result unit → World → Prop) :
  open_write env p content (fs w) = WriteOk →
  Q (Returns tt) (set_fs (<[p := content]> (fs w)) (record_event (EvWrite p) w)) →
  wp (write_file env p content) w Q.
Proof. unfold wp, write_file. intros ->. trivial. Qed.

Lemma wp_cleanup_temp env announce p w (Q : Result unit → World → Prop) :
  (∀ w2, (∀ q, q ≠ p → fs w2 !! q = fs w !! q) →
         uuid_count w2 = uuid_count w →
         (actions (trace w2) = actions (trace w)
          ∨ actions (trace w2) = (actions (trace w) ++ [EvUnlink p])%list) →
         scratch_released p w2 →
         Q (Returns tt) w2) →
  wp (cleanup_temp env announce p) w Q.
Proof.
  intros H. unfold wp. rewrite cleanup_temp_returns.
  destruct (cleanup_temp_frame env announce p w) as (Hfs & Hu & Hact).
  apply H; auto. apply cleanup_temp_releases.
Qed.

Lemma band_results_length env commands store :
  length (band_results env commands store).1 = length commands.
Proof.
  revert store. induction commands as [|[cmd name] rest IH]; intros store; cbn; auto.
Qed.

Lemma count_ok_four flags :
  length flags = 4%nat →
  Nat.ltb (count_ok flags) 4 = negb (forallb (λ b : bool, b) flags).
Proof.
  destruct flags as [|a [|b [|c [|d [|]]]]]; try discriminate. intros _.
  destruct a, b, c, d; reflexivity.
Qed.

Lemma forallb_four flags :
  length flags = 4%nat →
  forallb (λ b : bool, b) flags = true ↔ flags = [true; true; true; true].
Proof.
  destruct flags as [|a [|b [|c [|d [|]]]]]; try discriminate. intros _.
  destruct a, b, c, d; cbn; split; congruence.
Qed.

Section FourBands.
Variable env : Env.
Variables (store : FS) (n : nat) (file : UploadFile) (content : list Byte.byte).

Let temp := scratch_path env file n.
Let vocals_name := "vocals_" +:+ uuid4 env (S n) +:+ ".wav".
Let drums_name := "drums_" +:+ uuid4 env (S (S n)) +:+ ".wav".
Let bass_name := "bass_" +:+ uuid4 env (S (S (S n))) +:+ ".wav".
Let other_name := "other_" +:+ uuid4 env (S (S (S (S n)))) +:+ ".wav".
Let commands :=
  band_commands temp
    (path_join OUTPUT_DIR vocals_name) (path_join OUTPUT_DIR drums_name)
    (path_join OUTPUT_DIR bass_name) (path_join OUTPUT_DIR other_name).
Let results := band_results env commands (<[temp := content]> (probe_store env store)).

(** Closed form of a 4-band split whose upload reached the scratch file. *)
Lemma separate_instruments_run :
  engine_available env store = Returns true →
  upload_body file = inr content →
  open_write env temp content (probe_store env store) = WriteOk →
  wp (separate_instruments env file) (start store n) (λ r w',
    (∃ tail, actions (trace w')
             = ([EvSpawn ffmpeg_version 10; EvWrite temp]
                ++ List.map spawn_of commands ++ tail)%list
             ∧ (tail = [] ∨ tail = [EvUnlink temp]))
    ∧ r = (if forallb (λ b : bool, b) results.1
           then Returns [("vocals", "/outputs/" +:+ vocals_name);
                         ("drums", "/outputs/" +:+ drums_name);
                         ("bass", "/outputs/" +:+ bass_name);
                         ("other", "/outputs/" +:+ other_name)]
           else Raises (HTTPException 500 "Failed to separate some instruments"))
    ∧ (∀ q, q ≠ temp → fs w' !! q = results.2 !! q)).
Proof.
  intros Hprobe Hbody Hwrite. unfold separate_instruments. wp_guard Hprobe.
  wp_step. wp_step.
  change (path_join TEMP_DIR ("input_" +:+ uuid4 env n +:+ upload_suffix env file))
    with temp.
  apply wp_try_finally. wp_step.
  unfold instruments_body. wp_step. eapply wp_read_upload_ok; [exact Hbody|]. wp_norm.
  wp_step. eapply wp_write_file_ok; [exact Hwrite|]. wp_norm.
  wp_steps.
  fold vocals_name drums_name bass_name other_name. fold commands.
  apply wp_run_bands. cbn [fs]. fold results. intros w1 Hfs1 Hu1 Hact1. wp_norm.
  rewrite Nat.add_0_l, count_ok_four by (unfold results; by rewrite band_results_length).
  cbn [fs trace] in Hact1.
  assert (actions (trace w1)
          = ([EvSpawn ffmpeg_version 10; EvWrite temp]
             ++ List.map spawn_of commands)%list) as Hact.
  { rewrite Hact1. trace_norm. reflexivity. }
  clear Hact1.
  destruct (forallb _ results.1); wp_norm.
  - wp_steps. apply wp_cleanup_temp. intros w2 Hfs2 Hu2 Hact2 _.
    cbn [fs trace record_event] in *. rewrite actions_log_only, Hact in Hact2.
    split; [|split; [reflexivity|]].
    + destruct Hact2 as [-> | ->]; [exists []|exists [EvUnlink temp]];
        rewrite <- ?app_assoc, ?app_nil_r; auto.
    + intros q Hq. rewrite Hfs2 by exact Hq. by rewrite Hfs1.
  - wp_steps. apply wp_cleanup_temp. intros w2 Hfs2 Hu2 Hact2 _.
    cbn [fs trace record_event] in *. rewrite Hact in Hact2.
    split; [|split; [reflexivity|]].
    + destruct Hact2 as [-> | ->]; [exists []|exists [EvUnlink temp]];
        rewrite <- ?app_assoc, ?app_nil_r; auto.
    + intros q Hq. rewrite Hfs2 by exact Hq. by rewrite Hfs1.
Qed.

End FourBands.

(** C6, as the code has it: for a 4-band split request that passes the
    availability probe and whose upload is written to the scratch file, the
    four band commands (vocals, drums, bass, other) are all spawned, in that
    order, whatever their outcomes; the request succeeds exactly when all
    four exit with 0 and is otherwise answered with HTTP 500; and in either
    case the handler unlinks nothing but the scratch file, so every output a
    leg wrote is still in the store. *)
Theorem four_band_split_attempts_all (env : Env) (store : FS) (n : nat)
    (file : UploadFile) (content : list Byte.byte) :
  engine_available env store = Returns true →
  upload_body file = inr content →
  let temp := scratch_path env file n in
  open_write env temp content (probe_store env store) = WriteOk →
  let vocals_name := "vocals_" +:+ uuid4 env (S n) +:+ ".wav" in
  let drums_name := "drums_" +:+ uuid4 env (S (S n)) +:+ ".wav" in
  let bass_name := "bass_" +:+ uuid4 env (S (S (S n))) +:+ ".wav" in
  let other_name := "other_" +:+ uuid4 env (S (S (S (S n)))) +:+ ".wav" in
  let commands :=
    band_commands temp
      (path_join OUTPUT_DIR vocals_name) (path_join OUTPUT_DIR drums_name)
      (path_join OUTPUT_DIR bass_name) (path_join OUTPUT_DIR other_name) in
  let results :=
    band_results env commands (<[temp := content]> (probe_store env store)) in
  let success :=
    Returns [("vocals", "/outputs/" +:+ vocals_name);
             ("drums", "/outputs/" +:+ drums_name);
             ("bass", "/outputs/" +:+ bass_name);
             ("other", "/outputs/" +:+ other_name)] in
  wp (separate_instruments env file) (start store n) (λ r w',
    (∃ tail,
       actions (trace w')
       = ([EvSpawn ffmpeg_version 10; EvWrite temp;
           EvSpawn (band_command temp vocals_filter (path_join OUTPUT_DIR vocals_name)) 180;
           EvSpawn (band_command temp drums_filter (path_join OUTPUT_DIR drums_name)) 180;
           EvSpawn (band_command temp bass_filter (path_join OUTPUT_DIR bass_name)) 180;
           EvSpawn (band_command temp other_filter (path_join OUTPUT_DIR other_name)) 180]
          ++ tail)%list
       ∧ (tail = [] ∨ tail = [EvUnlink temp]))
    ∧ (r = success ↔ results.1 = [true; true; true; true])
    ∧ (results.1 ≠ [true; true; true; true] →
       r = Raises (HTTPException 500 "Failed to separate some instruments"))
    ∧ (∀ q, q ≠ temp → fs w' !! q = results.2 !! q)).
Proof.
  intros Hprobe Hbody temp Hwrite vocals_name drums_name bass_name other_name
    commands results success.
  eapply wp_mono;
    [exact (separate_instruments_run env store n file content Hprobe Hbody Hwrite)|].
  cbn beta. fold temp vocals_name drums_name bass_name other_name.
  fold commands. fold results. fold success.
  intros r w' (Hact & Hr & Hfs).
  assert (length results.1 = 4%nat) as Hlen
    by (unfold results; by rewrite band_results_length).
  pose proof (forallb_four results.1 Hlen) as Hall.
  split; [exact Hact|]. split; [|split; [|exact Hfs]].
  - destruct (forallb _ results.1).
    + split; [intros _; by apply Hall|intros _; exact Hr].
    + split; [intros Hs; rewrite Hs in Hr; discriminate|].
      intros Hs. apply Hall in Hs. discriminate.
  - intros Hnot. destruct (forallb _ results.1); [|exact Hr].
    exfalso. apply Hnot. by apply Hall.
Qed.

Lemma four_band_split_attempts_all_witness :
  wp (separate_instruments (demo_env tool_no_drums) demo_file) (start ∅ 0) (λ r w',
    r = Raises (HTTPException 500 "Failed to separate some instruments")
    ∧ fs w' !! "outputs/vocals_b-0000.wav" = Some some_audio
    ∧ fs w' !! "outputs/other_e-0000.wav" = Some some_audio).
Proof.
  pose proof (four_band_split_attempts_all (demo_env tool_no_drums) ∅ 0 demo_file
                some_audio eq_refl eq_refl eq_refl) as H.
  unfold wp in *. cbv zeta in H. destruct H as (_ & _ & Hfail & Hfs).
  split; [apply Hfail; vm_compute; discriminate|].
  split; (rewrite Hfs by (vm_compute; discriminate)); vm_compute; reflexivity.
Defined.

(** C6 as stated fails for requests that never reach the loop: with no
    engine installed no band command is attempted, and on a full disk the
    scratch write raises and, again, no band command is attempted. *)
Lemma four_band_split_not_always_attempted :
  actions (trace (separate_instruments (demo_env tool_missing) demo_file (start ∅ 0)).2)
  = [EvSpawn ["ffmpeg"; "-version"] 10]
  ∧ actions (trace (separate_instruments (demo_env_disk_full tool_working) demo_file
                      (start ∅ 0)).2)
    = [EvSpawn ["ffmpeg"; "-version"] 10;
       EvWrite "temp/input_a-0000.mp3"; EvUnlink "temp/input_a-0000.mp3"].
Proof. split; vm_compute; reflexivity. Qed.

(** ** Resolving a track URL *)

Lemma append_cons a p s : String a p +:+ s = String a (p +:+ s).
Proof. reflexivity. Qed.

Lemma append_empty s : "" +:+ s = s.
Proof. reflexivity. Qed.

Lemma prefix_empty s : String.prefix "" s = true.
Proof. destruct s; reflexivity. Qed.

Lemma prefix_append p : ∀ s, String.prefix p (p +:+ s) = true.
Proof.
  induction p as [|a p IH]; intros s.
  - apply prefix_empty.
  - rewrite append_cons. cbn [String.prefix].
    destruct (ascii_dec a a); [apply IH|congruence].
Qed.

Lemma prefix_has_char c p : ∀ s,
  has_char c p = true → String.prefix p s = true → has_char c s = true.
Proof.
  induction p as [|a p IH]; intros s; cbn [has_char String.prefix];
    [intros ?; discriminate|].
  destruct s as [|b s]; cbn [String.prefix]; [intros _ ?; discriminate|].
  destruct (ascii_dec a b) as [->|]; [|intros _ ?; discriminate].
  cbn [has_char]. destruct (Ascii.eqb b c); cbn [orb]; [reflexivity|]. apply IH.
Qed.

Lemma no_slash_no_prefix p name :
  has_char "/" p = true → has_char "/" name = false → String.prefix p name = false.
Proof.
  intros Hp Hname. destruct (String.prefix p name) eqn:E; [|reflexivity].
  apply (prefix_has_char "/") in E; [congruence|exact Hp].
Qed.

Lemma replace_from_skip old new pre : ∀ s,
  replace_from (String.length pre) old new (pre +:+ s) = replace_from 0 old new s.
Proof.
  induction pre as [|a pre IH]; intros s; [reflexivity|].
  rewrite append_cons. cbn [String.length replace_from]. apply IH.
Qed.

(** An occurrence at the head is replaced and the scan resumes after it. *)
Lemma replace_from_hit a old new s :
  replace_from 0 (String a old) new (String a old +:+ s)
  = new +:+ replace_from 0 (String a old) new s.
Proof.
  pose proof (prefix_append (String a old) s) as Hp.
  rewrite append_cons in *. cbn [replace_from]. rewrite Hp.
  replace (String.length (String a old) - 1)%nat with (String.length old)
    by (cbn [String.length]; lia).
  by rewrite replace_from_skip.
Qed.

Lemma replace_from_miss old new a s :
  String.prefix old (String a s) = false →
  replace_from 0 old new (String a s) = String a (replace_from 0 old new s).
Proof. intros H. cbn [replace_from]. by rewrite H. Qed.

(** A string that lacks some character of [old] holds no occurrence. *)
Lemma replace_from_no_occurrence c old new : ∀ s,
  has_char c old = true → has_char c s = false →
  replace_from 0 old new s = s.
Proof.
  intros s Hold. induction s as [|a s IH]; cbn [replace_from has_char];
    [reflexivity|].
  intros Hs. apply orb_false_iff in Hs as [Ha Hs].
  destruct (String.prefix old (String a s)) eqn:Hp.
  - apply (prefix_has_char c) in Hp; [|exact Hold].
    cbn in Hp. rewrite Ha, Hs in Hp. discriminate.
  - by rewrite IH.
Qed.

Lemma resolve_flat_name name :
  has_char "/" name = false →
  resolve_track_path ("/uploads/" +:+ name) = "uploads/" +:+ name
  ∧ resolve_track_path ("/outputs/" +:+ name) = "outputs/" +:+ name.
Proof.
  intros Hname. unfold resolve_track_path, str_replace.
  pose proof (no_slash_no_prefix "outputs/" name eq_refl Hname) as Hout.
  pose proof (no_slash_no_prefix "uploads/" name eq_refl Hname) as Hup.
  split.
  - rewrite replace_from_hit.
    rewrite (replace_from_no_occurrence "/" _ _ name) by (exact Hname || reflexivity).
    rewrite !append_cons, append_empty.
    do 7 (rewrite replace_from_miss by reflexivity).
    rewrite replace_from_miss by (cbn; exact Hout).
    by rewrite (replace_from_no_occurrence "/" _ _ name).
  - assert (replace_from 0 "/uploads/" "uploads/" ("/outputs/" +:+ name)
            = "/outputs/" +:+ name) as ->.
    { rewrite !append_cons, append_empty.
      do 8 (rewrite replace_from_miss by reflexivity).
      rewrite replace_from_miss by (cbn; exact Hup).
      by rewrite (replace_from_no_occurrence "/" _ _ name). }
    rewrite replace_from_hit.
    by rewrite (replace_from_no_occurrence "/" _ _ name).
Qed.




(** ** Outputs checked before they are reported *)


Lemma wp_read_upload file w (Q : Result (list Byte.byte) → World → Prop) :
  (∀ content, upload_body file = inr content → Q (Returns content) w) →
  (∀ text, upload_body file = inl text → Q (Raises (PyException text)) w) →
  wp (read_upload file) w Q.
Proof.
  unfold wp, read_upload. intros Hok Herr.
  destruct (upload_body file) as [text|content]; [by apply Herr|by apply Hok].
Qed.

Lemma wp_write_file env p content w (Q : Result unit → World → Prop) :
  Q (Returns tt) (set_fs (<[p := content]> (fs w)) (record_event (EvWrite p) w)) →
  (∀ text, Q (Raises (PyException text)) (record_event (EvWrite p) w)) →
  (∀ written text,
     Q (Raises (PyException text))
       (set_fs (<[p := written]> (fs w)) (record_event (EvWrite p) w))) →
  wp (write_file env p content) w Q.
Proof.
  unfold wp, write_file. intros Hok Hnone Hpart. cbv zeta.
  destruct (open_write env p content (fs w)); [apply Hok|apply Hnone|apply Hpart].
Qed.












(** ** The engine-unavailable error is distinct *)

Lemma engine_available_raises env store e :
  engine_available env store = Raises e → ∃ text, e = PyException text.
Proof.
  unfold engine_available, check_ffmpeg, mbind, M_bind. rewrite run_process_eq.
  cbn [fst snd].
  destruct (subprocess_run env ["ffmpeg"; "-version"] 10 (fs (start store 0))).1;
    cbn; intros [=]; eauto.
Qed.

Lemma not_guard_error_finally env announce p (body : M Payload) w :
  wp body w not_guard_error →
  wp (try_finally body (cleanup_temp env announce p)) w not_guard_error.
Proof. unfold wp, not_guard_error. by rewrite try_finally_cleanup_result. Qed.

Lemma not_guard_error_catch what (body : M Payload) w :
  (∀ text, what +:+ " failed: " +:+ text
           ≠ "FFmpeg is not available. Please install FFmpeg.") →
  wp body w not_guard_error →
  wp (catch body (reraise_or_500 what)) w not_guard_error.
Proof.
  intros Hwhat Hbody. apply wp_catch. eapply wp_mono; [exact Hbody|].
  cbn beta. unfold not_guard_error. intros [payload|e] w1 Hr; [discriminate|].
  destruct e as [status detail|text]; cbn [reraise_or_500]; wp_steps.
  - exact Hr.
  - unfold ffmpeg_unavailable. intros [= H]. by apply Hwhat in H.
Qed.

Ltac guard_error_io :=
  lazymatch goal with
  | |- not_guard_error _ _ =>
      unfold not_guard_error, ffmpeg_unavailable; discriminate
  | |- wp (try_finally _ (cleanup_temp _ _ _)) _ not_guard_error =>
      apply not_guard_error_finally
  | |- wp (catch _ (reraise_or_500 _)) _ not_guard_error =>
      apply not_guard_error_catch; [intros ?; rewrite !append_cons; discriminate|]
  | |- wp (read_upload _) _ _ =>
      apply wp_read_upload; [intros ? _|intros ? _]; wp_norm
  | |- wp (write_file _ _ _) _ _ =>
      apply wp_write_file; [|intros ?|intros ? ?]; wp_norm
  | |- wp (run_bands _ _ _) _ _ => apply wp_run_bands; intros ? _ _ _; wp_norm
  | |- wp (if ?b then _ else _) _ _ => destruct b eqn:?; wp_norm
  | |- bind_post _ _ ?r _ => destruct r as [[|]|] eqn:?; wp_norm
  | |- _ => wp_step
  end.

Lemma cut_body_not_guard_error env file s e temp w :
  wp (cut_body env file s e temp) w not_guard_error.
Proof. unfold cut_body. repeat guard_error_io. Qed.

Lemma fade_body_not_guard_error env file fade_type duration temp w :
  wp (fade_body env file fade_type duration temp) w not_guard_error.
Proof. unfold fade_body. repeat guard_error_io. Qed.

Lemma vocal_music_body_not_guard_error env file temp w :
  wp (vocal_music_body env file temp) w not_guard_error.
Proof. unfold vocal_music_body. repeat guard_error_io. Qed.

Lemma instruments_body_not_guard_error env file temp w :
  wp (instruments_body env file temp) w not_guard_error.
Proof. unfold instruments_body. repeat guard_error_io. Qed.

Lemma export_mix_body_not_guard_error env request w :
  wp (export_mix_body env request) w not_guard_error.
Proof.
  unfold export_mix_body.
  destruct (active_tracks (tracks request)); repeat guard_error_io.
Qed.

Lemma export_track_body_not_guard_error env request w :
  wp (export_track_body env request) w not_guard_error.
Proof. unfold export_track_body. cbv zeta. repeat guard_error_io. Qed.

(** Past the guard: a positive probe excludes the error, a negative one
    gives it, a raising probe raises something else. *)
Ltac guard_only body_lemma :=
  unfold guard_only_error; intros;
  wp_step; wp_step; wp_step; wp_step;
  lazymatch goal with
  | |- bind_post _ _ (engine_available ?env ?store) _ =>
      let Hprobe := fresh "Hprobe" in
      destruct (engine_available env store) as [[|]|] eqn:Hprobe; wp_norm;
      [ apply (wp_mono _ _ not_guard_error);
        [repeat guard_error_io; apply body_lemma
        |intros r w' Hr Heq; exfalso; exact (Hr Heq)]
      | wp_step; reflexivity
      | intros [= ->]; apply engine_available_raises in Hprobe as [text [=]] ]
  end.

Lemma every_endpoint_guard_only (env : Env) (store : FS) (n : nat) :
  at_every_endpoint (guard_only_error env store n) env.
Proof.
  refine (conj _ (conj _ (conj _ (conj _ (conj _ _))))).
  - unfold cut_audio. guard_only cut_body_not_guard_error.
  - unfold apply_fade. guard_only fade_body_not_guard_error.
  - unfold separate_vocal_music. guard_only vocal_music_body_not_guard_error.
  - unfold separate_instruments. guard_only instruments_body_not_guard_error.
  - unfold export_mix. guard_only export_mix_body_not_guard_error.
  - unfold export_track. guard_only export_track_body_not_guard_error.
Qed.

(** C9, as the code has it.  The probe answers negatively exactly when the
    executable is missing, the probe times out, or it exits with a non-zero
    code.  Then each of the six transformation endpoints raises the
    engine-unavailable error (HTTP 500 with its own detail text) having done
    nothing but the probe: no file is written, no transformation is
    spawned, no unique id is drawn.  The error is distinct: no endpoint
    produces it on any other path.  A probe that fails by raising another
    exception is not such an answer: that exception escapes every endpoint
    as it is, in place of the engine-unavailable error, again with nothing
    done beyond the probe. *)
Theorem engine_unavailable_fails_fast (env : Env) (store : FS) (n : nat) :
  (engine_available env store = Returns false →
   at_every_endpoint (fails_fast env store n) env)
  ∧ at_every_endpoint (guard_only_error env store n) env
  ∧ (∀ e, engine_available env store = Raises e →
     at_every_endpoint (λ handler,
       wp handler (start store n) (λ r w',
         r = Raises e
         ∧ r ≠ Raises ffmpeg_unavailable
         ∧ actions (trace w') = [EvSpawn ffmpeg_version 10]
         ∧ fs w' = probe_store env store
         ∧ uuid_count w' = n)) env)
  ∧ (engine_available env store = Returns false
     ↔ match (subprocess_run env ffmpeg_version 10 store).1 with
       | Completed returncode => returncode ≠ 0
       | RaisesFileNotFoundError | RaisesTimeoutExpired => True
       | RaisesOther _ => False
       end)
  ∧ (∀ e, engine_available env store = Raises e
          ↔ ∃ text, (subprocess_run env ffmpeg_version 10 store).1 = RaisesOther text
                    ∧ e = PyException text).
Proof.
  refine (conj _ (conj _ (conj _ (conj _ _)))).
  - apply every_endpoint_fails_fast.
  - apply every_endpoint_guard_only.
  - intros e Hprobe.
    destruct (engine_available_raises env store e Hprobe) as [text ->].
    refine (conj _ (conj _ (conj _ (conj _ (conj _ _))))); intros;
      [unfold cut_audio|unfold apply_fade|unfold separate_vocal_music
      |unfold separate_instruments|unfold export_mix|unfold export_track];
      wp_guard Hprobe; trace_norm;
      (split; [reflexivity|]); (split; [discriminate|]); auto.
  - unfold engine_available, check_ffmpeg, mbind, M_bind, ffmpeg_version.
    rewrite run_process_eq. cbn [fst snd fs start].
    destruct (subprocess_run env ["ffmpeg"; "-version"] 10 store).1 as [rc| | |text];
      cbn; [|tauto|tauto|split; [discriminate|tauto]].
    split.
    + intros [= Hrc]. by apply Z.eqb_neq.
    + intros Hrc. apply Z.eqb_neq in Hrc. by rewrite Hrc.
  - intros e.
    unfold engine_available, check_ffmpeg, mbind, M_bind, ffmpeg_version.
    rewrite run_process_eq. cbn [fst snd fs start].
    destruct (subprocess_run env ["ffmpeg"; "-version"] 10 store).1 as [rc| | |text];
      cbn; split; try discriminate;
      try (by intros (text' & Hother & _); discriminate Hother).
    + intros [= <-]. eauto.
    + intros (text' & [= <-] & ->). reflexivity.
Qed.

Lemma engine_unavailable_fails_fast_witness :
  engine_available (demo_env tool_missing) ∅ = Returns false
  ∧ fails_fast (demo_env tool_missing) ∅ 0
      (separate_instruments (demo_env tool_missing) demo_file).
Proof.
  split; [reflexivity|].
  exact (proj1 (proj2 (proj2 (proj2
           (proj1 (engine_unavailable_fails_fast (demo_env tool_missing) ∅ 0)
              eq_refl))))
         demo_file).
Defined.

(** C9 as stated fails for a probe that fails by raising.  With a tool that
    cannot be started for lack of permission the probe fails, and cut, the
    4-band split and the mix export all end in that [PermissionError], not
    in the engine-unavailable HTTP 500. *)
Lemma probe_failure_not_always_engine_unavailable :
  (subprocess_run (demo_env tool_forbidden) ffmpeg_version 10 ∅).1
  = RaisesOther "PermissionError"
  ∧ engine_available (demo_env tool_forbidden) ∅
    = Raises (PyException "PermissionError")
  ∧ (cut_audio (demo_env tool_forbidden) demo_file 1 3 (start ∅ 0)).1
    = Raises (PyException "PermissionError")
  ∧ (separate_instruments (demo_env tool_forbidden) demo_file (start ∅ 0)).1
    = Raises (PyException "PermissionError")
  ∧ (export_mix (demo_env tool_forbidden)
       {| tracks := [demo_track "/uploads/1.wav" false false];
          mix_format := "mp3"; mix_quality := "high" |} (start ∅ 0)).1
    = Raises (PyException "PermissionError")
  ∧ Raises (PyException "PermissionError") ≠ (Raises ffmpeg_unavailable : Result Payload).
Proof. repeat split; try (vm_compute; reflexivity). discriminate. Qed.

(** ** Outputs reported without a check *)

(** C1 fails on the two separation handlers.  A tool that exits 0 and
    writes nothing makes the 4-band split answer with four URLs none of
    which names a file; a tool that exits 0 and leaves zero-byte files makes
    the vocal/music split answer with two URLs of empty files. *)
Theorem separation_reports_unverified_outputs :
  (let out := separate_instruments (demo_env tool_silent) demo_file (start ∅ 0) in
   out.1 = Returns [("vocals", "/outputs/vocals_b-0000.wav");
                    ("drums", "/outputs/drums_c-0000.wav");
                    ("bass", "/outputs/bass_d-0000.wav");
                    ("other", "/outputs/other_e-0000.wav")]
   ∧ fs out.2 !! "outputs/vocals_b-0000.wav" = None
   ∧ fs out.2 !! "outputs/drums_c-0000.wav" = None
   ∧ fs out.2 !! "outputs/bass_d-0000.wav" = None
   ∧ fs out.2 !! "outputs/other_e-0000.wav" = None)
  ∧ (let out := separate_vocal_music (demo_env tool_hollow) demo_file (start ∅ 0) in
     out.1 = Returns [("vocal", "/outputs/vocal_b-0000.wav");
                      ("music", "/outputs/music_c-0000.wav")]
     ∧ fs out.2 !! "outputs/vocal_b-0000.wav" = Some []
     ∧ fs out.2 !! "outputs/music_c-0000.wav" = Some []).
Proof. cbv zeta. repeat split; vm_compute; reflexivity. Qed.

(** * Further properties of the handlers *)

(** ** Closed forms of the upload handlers *)

(** The tail of a run that went through the cleanup of [temp]. *)
Lemma cleanup_tail (prefix : list Event) temp (acts acts2 : list Event) :
  acts = prefix →
  (acts2 = acts ∨ acts2 = (acts ++ [EvUnlink temp])%list) →
  ∃ tail, acts2 = (prefix ++ tail)%list ∧ (tail = [] ∨ tail = [EvUnlink temp]).
Proof.
  intros <- [-> | ->]; [exists []|exists [EvUnlink temp]];
    rewrite ?app_nil_r; auto.
Qed.

Section CutRun.
Variable env : Env.
Variables (store : FS) (n : nat) (file : UploadFile) (content : list Byte.byte).
Variables (start_time end_time : float).

Let temp := scratch_path env file n.
Let output_name := "cut_" +:+ uuid4 env (S n) +:+ ".wav".
Let command :=
  cut_command env temp start_time (PrimFloat.sub end_time start_time)
    (path_join OUTPUT_DIR output_name).
Let run := subprocess_run env command 120 (<[temp := content]> (probe_store env store)).

Lemma cut_audio_closed_form :
  engine_available env store = Returns true →
  PrimFloat.leb end_time start_time = false →
  PrimFloat.ltb start_time PrimFloat.zero = false →
  upload_body file = inr content →
  open_write env temp content (probe_store env store) = WriteOk →
  wp (cut_audio env file start_time end_time) (start store n) (λ r w',
    (∃ tail, actions (trace w')
             = ([EvSpawn ffmpeg_version 10; EvWrite temp; EvSpawn command 120]
                ++ tail)%list
             ∧ (tail = [] ∨ tail = [EvUnlink temp]))
    ∧ r = (if exit_ok run.1 then
             if missing_or_empty run.2 (path_join OUTPUT_DIR output_name)
             then Raises (HTTPException 500 "Cut operation produced empty file")
             else Returns [("url", "/outputs/" +:+ output_name)]
           else Raises (HTTPException 500
                          "Failed to cut audio. Please check the audio file format."))
    ∧ (∀ q, q ≠ temp → fs w' !! q = run.2 !! q)).
Proof.
  intros Hprobe Hle Hlt Hbody Hwrite. unfold cut_audio. wp_guard Hprobe.
  rewrite Hle, Hlt. wp_step. wp_step.
  change (path_join TEMP_DIR ("input_" +:+ uuid4 env n +:+ upload_suffix env file))
    with temp.
  apply wp_try_finally. wp_step.
  unfold cut_body. wp_step. eapply wp_read_upload_ok; [exact Hbody|]. wp_norm.
  wp_step. eapply wp_write_file_ok; [exact Hwrite|]. wp_norm.
  wp_step. wp_step. wp_step. wp_step. wp_step. wp_step.
  fold output_name. fold command. fold run.
  destruct (exit_ok run.1); wp_norm.
  - wp_step. wp_step. destruct (missing_or_empty run.2 _); wp_norm.
    + wp_step. wp_step. apply wp_cleanup_temp. intros w2 Hfs2 Hu2 Hact2 _.
      cbn [fs trace] in *. split; [|split; [reflexivity|exact Hfs2]].
      eapply cleanup_tail; [|exact Hact2]. trace_norm. reflexivity.
    + wp_steps. apply wp_cleanup_temp. intros w2 Hfs2 Hu2 Hact2 _.
      cbn [fs trace record_event] in *. split; [|split; [reflexivity|exact Hfs2]].
      eapply cleanup_tail; [|exact Hact2]. trace_norm. reflexivity.
  - wp_steps. apply wp_cleanup_temp. intros w2 Hfs2 Hu2 Hact2 _.
    cbn [fs trace] in *. split; [|split; [reflexivity|exact Hfs2]].
    eapply cleanup_tail; [|exact Hact2]. trace_norm. reflexivity.
Qed.
End CutRun.

(** X1: a cut whose window passes the checks, with a readable upload and a
    writable scratch path, does exactly this: the probe, the write of the
    scratch file, one [ffmpeg -ss start -t (end - start)] command with a
    120 s timeout, and then at most the unlink of the scratch file.  It
    answers with the output URL only when the command exits 0 and the
    output exists and is not empty, with "Cut operation produced empty
    file" when it exits 0 without such an output, and with "Failed to cut
    audio..." otherwise.  Apart from the scratch path the store is the one
    the command left. *)
Theorem cut_audio_run (env : Env) (store : FS) (n : nat) (file : UploadFile)
    (content : list Byte.byte) (start_time end_time : float) :
  let temp := scratch_path env file n in
  let output_name := "cut_" +:+ uuid4 env (S n) +:+ ".wav" in
  let command :=
    ["ffmpeg"; "-i"; temp;
     "-ss"; str_float env start_time;
     "-t"; str_float env (PrimFloat.sub end_time start_time);
     "-acodec"; "pcm_s16le"; "-ar"; "44100"; "-ac"; "2";
     "-y"; path_join OUTPUT_DIR output_name] in
  let run :=
    subprocess_run env command 120 (<[temp := content]> (probe_store env store)) in
  engine_available env store = Returns true →
  PrimFloat.leb end_time start_time = false →
  PrimFloat.ltb start_time PrimFloat.zero = false →
  upload_body file = inr content →
  open_write env temp content (probe_store env store) = WriteOk →
  wp (cut_audio env file start_time end_time) (start store n) (λ r w',
    (∃ tail, actions (trace w')
             = ([EvSpawn ffmpeg_version 10; EvWrite temp; EvSpawn command 120]
                ++ tail)%list
             ∧ (tail = [] ∨ tail = [EvUnlink temp]))
    ∧ r = (if exit_ok run.1 then
             if missing_or_empty run.2 (path_join OUTPUT_DIR output_name)
             then Raises (HTTPException 500 "Cut operation produced empty file")
             else Returns [("url", "/outputs/" +:+ output_name)]
           else Raises (HTTPException 500
                          "Failed to cut audio. Please check the audio file format."))
    ∧ (∀ q, q ≠ temp → fs w' !! q = run.2 !! q)).
Proof.
  intros temp output_name command run Hprobe Hle Hlt Hbody Hwrite.
  exact (cut_audio_closed_form env store n file content start_time end_time
           Hprobe Hle Hlt Hbody Hwrite).
Qed.

Lemma cut_audio_run_witness :
  let out := cut_audio (demo_env tool_working) demo_file 1 3 (start ∅ 0) in
  out.1 = Returns [("url", "/outputs/cut_b-0000.wav")]
  ∧ fs out.2 !! "outputs/cut_b-0000.wav" = Some some_audio.
Proof.
  cbv zeta.
  pose proof (cut_audio_run (demo_env tool_working) ∅ 0 demo_file some_audio 1 3
                eq_refl eq_refl eq_refl eq_refl eq_refl) as H.
  unfold wp in H. cbv zeta in H. destruct H as (_ & Hr & Hfs).
  split.
  - etransitivity; [exact Hr|]. vm_compute. reflexivity.
  - rewrite Hfs by (vm_compute; discriminate). vm_compute. reflexivity.
Defined.

(** No float is at most NaN, and NaN is below no float: both comparisons of
    the window check answer [False] on a NaN start time. *)
Lemma nan_never_at_most (x : float) : PrimFloat.leb x PrimFloat.nan = false.
Proof.
  rewrite FloatAxioms.leb_spec.
  change (FloatOps.Prim2SF nan) with SpecFloat.S754_nan.
  unfold SpecFloat.SFleb, SpecFloat.SFcompare.
  destruct (FloatOps.Prim2SF x) as [| | |? ? ?]; reflexivity.
Qed.

Lemma nan_never_below (x : float) : PrimFloat.ltb PrimFloat.nan x = false.
Proof.
  rewrite FloatAxioms.ltb_spec.
  change (FloatOps.Prim2SF nan) with SpecFloat.S754_nan.
  reflexivity.
Qed.

(** X2: the window check of [cut_audio] lets a NaN start time through.
    [end_time <= start_time] and [start_time < 0] are both false on NaN, so
    with an engine, a readable upload and a writable scratch path the
    request is never answered 400, whatever the end time: the cut command is
    spawned with the NaN start and the NaN duration. *)
Theorem cut_window_check_passes_nan (env : Env) (store : FS) (n : nat)
    (file : UploadFile) (content : list Byte.byte) (end_time : float) :
  engine_available env store = Returns true →
  upload_body file = inr content →
  open_write env (scratch_path env file n) content (probe_store env store) = WriteOk →
  wp (cut_audio env file PrimFloat.nan end_time) (start store n) (λ r w',
    In (EvSpawn
          (cut_command env (scratch_path env file n) PrimFloat.nan
             (PrimFloat.sub end_time PrimFloat.nan)
             (path_join OUTPUT_DIR ("cut_" +:+ uuid4 env (S n) +:+ ".wav")))
          120)
       (actions (trace w'))
    ∧ ∀ detail, r ≠ Raises (HTTPException 400 detail)).
Proof.
  intros Hprobe Hbody Hwrite.
  eapply wp_mono.
  { apply (cut_audio_closed_form env store n file content PrimFloat.nan end_time
             Hprobe (nan_never_at_most end_time) (nan_never_below PrimFloat.zero)
             Hbody Hwrite). }
  cbn beta. intros r w' ((tail & -> & _) & -> & _). split.
  - cbn. auto.
  - intros detail. destruct (exit_ok _); [destruct (missing_or_empty _ _)|];
      discriminate.
Qed.

Lemma cut_window_check_passes_nan_witness :
  wp (cut_audio (demo_env tool_working) demo_file PrimFloat.nan 3) (start ∅ 0)
     (λ r w',
        In (EvSpawn
              (cut_command (demo_env tool_working) "temp/input_a-0000.mp3"
                 PrimFloat.nan (PrimFloat.sub 3 PrimFloat.nan)
                 "outputs/cut_b-0000.wav")
              120)
           (actions (trace w'))
        ∧ ∀ detail, r ≠ Raises (HTTPException 400 detail)).
Proof.
  exact (cut_window_check_passes_nan (demo_env tool_working) ∅ 0 demo_file
           some_audio 3 eq_refl eq_refl eq_refl).
Defined.

Section FadeRun.
Variable env : Env.
Variables (store : FS) (n : nat) (file : UploadFile) (content : list Byte.byte).
Variables (fade_type : string) (duration : float).

Let temp := scratch_path env file n.
Let output_name := "fade_" +:+ fade_type +:+ "_" +:+ uuid4 env (S n) +:+ ".wav".
Let command :=
  ["ffmpeg"; "-i"; temp;
   "-af"; "afade=t=" +:+ fade_type +:+ ":d=" +:+ str_float env duration;
   "-acodec"; "pcm_s16le"; "-ar"; "44100"; "-ac"; "2";
   "-y"; path_join OUTPUT_DIR output_name].
Let run := subprocess_run env command 120 (<[temp := content]> (probe_store env store)).

(** X3: a fade of type "in" or "out" with a positive duration, a readable
    upload and a writable scratch path does exactly this: the probe, the
    write of the scratch file, one command with the filter
    [afade=t=<type>:d=<duration>] and a 120 s timeout, and then at most the
    unlink of the scratch file.  It answers with the output URL only when
    the command exits 0 and the output exists and is not empty. *)
Theorem apply_fade_run :
  engine_available env store = Returns true →
  fade_type = "in" ∨ fade_type = "out" →
  PrimFloat.leb duration PrimFloat.zero = false →
  upload_body file = inr content →
  open_write env temp content (probe_store env store) = WriteOk →
  wp (apply_fade env file fade_type duration) (start store n) (λ r w',
    (∃ tail, actions (trace w')
             = ([EvSpawn ffmpeg_version 10; EvWrite temp; EvSpawn command 120]
                ++ tail)%list
             ∧ (tail = [] ∨ tail = [EvUnlink temp]))
    ∧ r = (if exit_ok run.1 then
             if missing_or_empty run.2 (path_join OUTPUT_DIR output_name)
             then Raises (HTTPException 500 "Fade operation produced empty file")
             else Returns [("url", "/outputs/" +:+ output_name)]
           else Raises (HTTPException 500 "Failed to apply fade effect"))
    ∧ (∀ q, q ≠ temp → fs w' !! q = run.2 !! q)).
Proof.
  intros Hprobe Htype Hpos Hbody Hwrite. unfold apply_fade. wp_guard Hprobe.
  assert (String.eqb fade_type "in" || String.eqb fade_type "out" = true) as ->
    by (destruct Htype as [-> | ->]; reflexivity).
  wp_norm. rewrite Hpos. wp_step. wp_step.
  change (path_join TEMP_DIR ("input_" +:+ uuid4 env n +:+ upload_suffix env file))
    with temp.
  apply wp_try_finally. wp_step.
  unfold fade_body. wp_step. eapply wp_read_upload_ok; [exact Hbody|]. wp_norm.
  wp_step. eapply wp_write_file_ok; [exact Hwrite|]. wp_norm.
  wp_step. wp_step. wp_step.
  fold output_name.
  assert ((if String.eqb fade_type "in"
           then "afade=t=in:d=" +:+ str_float env duration
           else "afade=t=out:d=" +:+ str_float env duration)
          = "afade=t=" +:+ fade_type +:+ ":d=" +:+ str_float env duration) as ->
    by (destruct Htype as [-> | ->]; reflexivity).
  change (fade_command temp
            ("afade=t=" +:+ fade_type +:+ ":d=" +:+ str_float env duration)
            (path_join OUTPUT_DIR output_name)) with command.
  wp_step. fold run.
  destruct (exit_ok run.1); wp_norm.
  - wp_step. wp_step. destruct (missing_or_empty run.2 _); wp_norm.
    + wp_step. wp_step. apply wp_cleanup_temp. intros w2 Hfs2 Hu2 Hact2 _.
      cbn [fs trace] in *. split; [|split; [reflexivity|exact Hfs2]].
      eapply cleanup_tail; [|exact Hact2]. trace_norm. reflexivity.
    + wp_steps. apply wp_cleanup_temp. intros w2 Hfs2 Hu2 Hact2 _.
      cbn [fs trace record_event] in *. split; [|split; [reflexivity|exact Hfs2]].
      eapply cleanup_tail; [|exact Hact2]. trace_norm. reflexivity.
  - wp_steps. apply wp_cleanup_temp. intros w2 Hfs2 Hu2 Hact2 _.
    cbn [fs trace] in *. split; [|split; [reflexivity|exact Hfs2]].
    eapply cleanup_tail; [|exact Hact2]. trace_norm. reflexivity.
Qed.
End FadeRun.

Lemma apply_fade_run_witness :
  let out := apply_fade (demo_env tool_working) demo_file "out" 2 (start ∅ 0) in
  out.1 = Returns [("url", "/outputs/fade_out_b-0000.wav")]
  ∧ In (EvSpawn ["ffmpeg"; "-i"; "temp/input_a-0000.mp3";
                 "-af"; "afade=t=out:d=2.0";
                 "-acodec"; "pcm_s16le"; "-ar"; "44100"; "-ac"; "2";
                 "-y"; "outputs/fade_out_b-0000.wav"] 120)
       (actions (trace out.2)).
Proof.
  cbv zeta.
  pose proof (apply_fade_run (demo_env tool_working) ∅ 0 demo_file some_audio "out" 2
                eq_refl (or_intror eq_refl) eq_refl eq_refl eq_refl) as H.
  unfold wp in H. cbv zeta in H. destruct H as ((tail & Hact & _) & Hr & _).
  split.
  - etransitivity; [exact Hr|]. vm_compute. reflexivity.
  - rewrite Hact. apply in_or_app. left. right. right. left. reflexivity.
Defined.



Section VocalMusicRun.
Variable env : Env.
Variables (store : FS) (n : nat) (file : UploadFile) (content : list Byte.byte).

Let temp := scratch_path env file n.
Let vocal_name := "vocal_" +:+ uuid4 env (S n) +:+ ".wav".
Let music_name := "music_" +:+ uuid4 env (S (S n)) +:+ ".wav".
Let vocal := vocal_command temp (path_join OUTPUT_DIR vocal_name).
Let music := music_command temp (path_join OUTPUT_DIR music_name).
Let vocal_run := subprocess_run env vocal 180 (<[temp := content]> (probe_store env store)).
Let music_run := subprocess_run env music 180 vocal_run.2.

(** X5: a vocal/music split with an engine, a readable upload and a writable
    scratch path always spawns both commands, the vocal one first and the
    music one on the store the first left, each with a 180 s timeout, even
    when the first fails.  It succeeds exactly when both exit 0 and both
    output paths exist afterwards; the size of the outputs is not looked
    at. *)
Theorem separate_vocal_music_run :
  engine_available env store = Returns true →
  upload_body file = inr content →
  open_write env temp content (probe_store env store) = WriteOk →
  wp (separate_vocal_music env file) (start store n) (λ r w',
    (∃ tail, actions (trace w')
             = ([EvSpawn ffmpeg_version 10; EvWrite temp;
                 EvSpawn vocal 180; EvSpawn music 180] ++ tail)%list
             ∧ (tail = [] ∨ tail = [EvUnlink temp]))
    ∧ r = (if exit_ok vocal_run.1 && exit_ok music_run.1 then
             if bool_decide (is_Some (music_run.2 !! path_join OUTPUT_DIR vocal_name))
                && bool_decide (is_Some (music_run.2 !! path_join OUTPUT_DIR music_name))
             then Returns [("vocal", "/outputs/" +:+ vocal_name);
                           ("music", "/outputs/" +:+ music_name)]
             else Raises (HTTPException 500 "Separation produced empty files")
           else Raises (HTTPException 500 "Failed to separate audio tracks"))
    ∧ (∀ q, q ≠ temp → fs w' !! q = music_run.2 !! q)).
Proof.
  intros Hprobe Hbody Hwrite. unfold separate_vocal_music. wp_guard Hprobe.
  wp_step. wp_step.
  change (path_join TEMP_DIR ("input_" +:+ uuid4 env n +:+ upload_suffix env file))
    with temp.
  apply wp_try_finally. wp_step.
  unfold vocal_music_body. wp_step. eapply wp_read_upload_ok; [exact Hbody|]. wp_norm.
  wp_step. eapply wp_write_file_ok; [exact Hwrite|]. wp_norm.
  do 8 wp_step.
  fold vocal_name music_name. fold vocal music. fold vocal_run. fold music_run.
  destruct (exit_ok vocal_run.1 && exit_ok music_run.1); wp_norm.
  - do 4 wp_step.
    destruct (bool_decide (is_Some (music_run.2 !! path_join OUTPUT_DIR vocal_name)));
      destruct (bool_decide (is_Some (music_run.2 !! path_join OUTPUT_DIR music_name)));
      cbn [negb orb andb]; wp_steps;
      apply wp_cleanup_temp; intros w2 Hfs2 Hu2 Hact2 _;
      cbn [fs trace record_event] in *;
      (split; [|split; [reflexivity|exact Hfs2]]);
      (eapply cleanup_tail; [|exact Hact2]); trace_norm; reflexivity.
  - wp_steps. apply wp_cleanup_temp. intros w2 Hfs2 Hu2 Hact2 _.
    cbn [fs trace] in *. split; [|split; [reflexivity|exact Hfs2]].
    eapply cleanup_tail; [|exact Hact2]. trace_norm. reflexivity.
Qed.
End VocalMusicRun.

Lemma separate_vocal_music_run_witness :
  let out := separate_vocal_music (demo_env tool_failing) demo_file (start ∅ 0) in
  out.1 = Raises (HTTPException 500 "Failed to separate audio tracks")
  ∧ In (EvSpawn (music_command "temp/input_a-0000.mp3" "outputs/music_c-0000.wav") 180)
       (actions (trace out.2)).
Proof.
  cbv zeta.
  pose proof (separate_vocal_music_run (demo_env tool_failing) ∅ 0 demo_file some_audio
                eq_refl eq_refl eq_refl) as H.
  unfold wp in H. cbv zeta in H. destruct H as ((tail & Hact & _) & Hr & _).
  split.
  - etransitivity; [exact Hr|]. vm_compute. reflexivity.
  - rewrite Hact. apply in_or_app. left. right. right. right. left. reflexivity.
Defined.

(** ** The probe *)

(** X6: [check_ffmpeg] spawns [ffmpeg -version] once with a 10 s timeout and
    draws no unique id.  It answers whether the return code is 0, answers
    [False] when the executable is missing or the probe times out, and lets
    every other exception of [subprocess.run] escape. *)
Theorem check_ffmpeg_answer (env : Env) (w : World) :
  let outcome := (subprocess_run env ffmpeg_version 10 (fs w)).1 in
  actions (trace (check_ffmpeg env w).2)
    = (actions (trace w) ++ [EvSpawn ffmpeg_version 10])%list
  ∧ uuid_count (check_ffmpeg env w).2 = uuid_count w
  ∧ match outcome with
    | Completed returncode =>
        (check_ffmpeg env w).1 = Returns (returncode =? 0)%Z
    | RaisesFileNotFoundError | RaisesTimeoutExpired =>
        (check_ffmpeg env w).1 = Returns false
    | RaisesOther text => (check_ffmpeg env w).1 = Raises (PyException text)
    end.
Proof.
  cbv zeta. rewrite check_ffmpeg_eq. cbn [fst snd]. split; [|split].
  - cbn [trace set_fs record_event]. by rewrite actions_app.
  - reflexivity.
  - unfold engine_available, check_ffmpeg, mbind, M_bind, ffmpeg_version.
    rewrite run_process_eq. cbn [fst snd fs start].
    destruct (subprocess_run env ["ffmpeg"; "-version"] 10 (fs w)).1; reflexivity.
Qed.

(** X7: when the probe raises an exception that [check_ffmpeg] does not
    catch, every endpoint lets that same exception escape: the probe sits
    outside the handler's [try], so the error is not turned into an HTTP
    error, and nothing is done beyond the probe. *)
Theorem probe_exception_escapes (env : Env) (store : FS) (n : nat) (e : Exn) :
  engine_available env store = Raises e →
  at_every_endpoint (λ handler,
    wp handler (start store n) (λ r w',
      r = Raises e
      ∧ (∃ text, e = PyException text)
      ∧ actions (trace w') = [EvSpawn ffmpeg_version 10]
      ∧ uuid_count w' = n)) env.
Proof.
  intros Hprobe.
  destruct (engine_available_raises env store e Hprobe) as [text ->].
  refine (conj _ (conj _ (conj _ (conj _ (conj _ _))))); intros;
    [unfold cut_audio|unfold apply_fade|unfold separate_vocal_music
    |unfold separate_instruments|unfold export_mix|unfold export_track];
    wp_guard Hprobe; trace_norm; eauto.
Qed.

Lemma probe_exception_escapes_witness :
  (cut_audio (demo_env tool_forbidden) demo_file 1 3 (start ∅ 0)).1
  = Raises (PyException "PermissionError").
Proof.
  exact (proj1 (proj1 (probe_exception_escapes (demo_env tool_forbidden) ∅ 0
                         (PyException "PermissionError") eq_refl)
                  demo_file 1%float 3%float)).
Defined.

(** ** What a handler touches *)

Lemma spawns_touch_nothing (P : Event → Prop) commands :
  (∀ cmd t, P (EvSpawn cmd t)) → Forall P (List.map spawn_of commands).
Proof.
  intros HP. induction commands as [|c commands IH]; constructor; [apply HP|exact IH].
Qed.

Ltac touch_leaf :=
  unfold keeps_to, keeps_off, touches_only, touches_nothing in *;
  cbn [trace record_event set_fs] in *;
  rewrite ?actions_app;
  repeat match goal with
         | H : actions (trace _) = _ |- _ => rewrite H; clear H
         end;
  trace_norm;
  rewrite ?Forall_app, ?Forall_cons, ?Forall_nil;
  repeat split; try assumption; try reflexivity;
  try (apply spawns_touch_nothing; intros; exact I).

Lemma keeps_to_finally env announce p (body : M Payload) w :
  wp body w (keeps_to p) →
  wp (try_finally body (cleanup_temp env announce p)) w (keeps_to p).
Proof.
  intros Hbody. apply wp_try_finally. eapply wp_mono; [exact Hbody|].
  cbn beta. intros r w1 Hr. apply wp_cleanup_temp. intros w2 _ _ Hact2 _.
  change (keeps_to (A:=Payload) p r w2).
  destruct Hact2 as [H|H]; touch_leaf.
Qed.

Lemma keeps_to_catch what p (body : M Payload) w :
  wp body w (keeps_to p) →
  wp (catch body (reraise_or_500 what)) w (keeps_to p).
Proof.
  intros Hbody. apply wp_catch. eapply wp_mono; [exact Hbody|].
  cbn beta. intros [payload|e] w1 Hr; [exact Hr|].
  destruct e; cbn [reraise_or_500]; wp_steps; touch_leaf.
Qed.

Lemma keeps_off_catch what (body : M Payload) w :
  wp body w keeps_off →
  wp (catch body (reraise_or_500 what)) w keeps_off.
Proof.
  intros Hbody. apply wp_catch. eapply wp_mono; [exact Hbody|].
  cbn beta. intros [payload|e] w1 Hr; [exact Hr|].
  destruct e; cbn [reraise_or_500]; wp_steps; touch_leaf.
Qed.

Ltac touch_io :=
  lazymatch goal with
  | |- keeps_to _ _ _ => touch_leaf
  | |- keeps_off _ _ => touch_leaf
  | |- wp (try_finally _ (cleanup_temp _ _ _)) _ (keeps_to _) =>
      apply keeps_to_finally
  | |- wp (catch _ (reraise_or_500 _)) _ (keeps_to _) => apply keeps_to_catch
  | |- wp (catch _ (reraise_or_500 _)) _ keeps_off => apply keeps_off_catch
  | |- wp (read_upload _) _ _ =>
      apply wp_read_upload; [intros ? _|intros ? _]; wp_norm
  | |- wp (write_file _ _ _) _ _ =>
      apply wp_write_file; [|intros ?|intros ? ?]; wp_norm
  | |- wp (run_bands _ _ _) _ _ => apply wp_run_bands; intros ? _ _ ?; wp_norm
  | |- wp (if ?b then _ else _) _ _ => destruct b eqn:?; wp_norm
  | |- bind_post _ _ ?r _ => destruct r as [[|]|] eqn:?; wp_norm
  | |- _ => wp_step
  end.

Lemma cut_body_keeps_to env file s e temp w :
  touches_only temp (trace w) → wp (cut_body env file s e temp) w (keeps_to temp).
Proof. intros Hw. unfold cut_body. repeat touch_io. Qed.

Lemma fade_body_keeps_to env file fade_type duration temp w :
  touches_only temp (trace w) →
  wp (fade_body env file fade_type duration temp) w (keeps_to temp).
Proof. intros Hw. unfold fade_body. repeat touch_io. Qed.

Lemma vocal_music_body_keeps_to env file temp w :
  touches_only temp (trace w) → wp (vocal_music_body env file temp) w (keeps_to temp).
Proof. intros Hw. unfold vocal_music_body. repeat touch_io. Qed.

Lemma instruments_body_keeps_to env file temp w :
  touches_only temp (trace w) → wp (instruments_body env file temp) w (keeps_to temp).
Proof. intros Hw. unfold instruments_body. repeat touch_io. Qed.

Lemma export_mix_body_keeps_off env request w :
  touches_nothing (trace w) → wp (export_mix_body env request) w keeps_off.
Proof.
  intros Hw. unfold export_mix_body.
  destruct (active_tracks (tracks request)); repeat touch_io.
Qed.

Lemma export_track_body_keeps_off env request w :
  touches_nothing (trace w) → wp (export_track_body env request) w keeps_off.
Proof. intros Hw. unfold export_track_body. cbv zeta. repeat touch_io. Qed.

(** X8: whatever the outside world does, the only file a handler of an
    upload endpoint (cut, fade and the two splits) writes or unlinks itself
    is its own scratch path, and the two export handlers write and unlink
    nothing themselves: every other change of the store is the work of a
    spawned command. *)
Theorem handlers_touch_only_their_scratch (env : Env) (store : FS) (n : nat) :
  (∀ file s e,
     wp (cut_audio env file s e) (start store n) (keeps_to (scratch_path env file n)))
  ∧ (∀ file fade_type duration,
       wp (apply_fade env file fade_type duration) (start store n)
          (keeps_to (scratch_path env file n)))
  ∧ (∀ file,
       wp (separate_vocal_music env file) (start store n)
          (keeps_to (scratch_path env file n)))
  ∧ (∀ file,
       wp (separate_instruments env file) (start store n)
          (keeps_to (scratch_path env file n)))
  ∧ (∀ request, wp (export_mix env request) (start store n) keeps_off)
  ∧ (∀ request, wp (export_track env request) (start store n) keeps_off).
Proof.
  refine (conj _ (conj _ (conj _ (conj _ (conj _ _))))); intros.
  - unfold cut_audio. repeat touch_io. apply cut_body_keeps_to. touch_leaf.
  - unfold apply_fade. repeat touch_io. apply fade_body_keeps_to. touch_leaf.
  - unfold separate_vocal_music. repeat touch_io.
    apply vocal_music_body_keeps_to. touch_leaf.
  - unfold separate_instruments. repeat touch_io.
    apply instruments_body_keeps_to. touch_leaf.
  - unfold export_mix. repeat touch_io. apply export_mix_body_keeps_off. touch_leaf.
  - unfold export_track. repeat touch_io. apply export_track_body_keeps_off. touch_leaf.
Qed.

(** ** Scratch paths of successive requests *)

Ltac count_leaf :=
  unfold drew_id in *; cbn [uuid_count record_event set_fs] in *;
  repeat match goal with
         | H : uuid_count _ = _ |- _ => rewrite H; clear H
         end;
  cbn [uuid_count record_event set_fs] in *;
  first [assumption | lia].

Lemma drew_id_finally env announce p n (body : M Payload) w :
  wp body w (drew_id n) →
  wp (try_finally body (cleanup_temp env announce p)) w (drew_id n).
Proof.
  intros Hbody. apply wp_try_finally. eapply wp_mono; [exact Hbody|].
  cbn beta. intros r w1 Hr. apply wp_cleanup_temp. intros w2 _ Hu _ _.
  change (drew_id (A:=Payload) n r w2). count_leaf.
Qed.

Lemma drew_id_catch what n (body : M Payload) w :
  wp body w (drew_id n) →
  wp (catch body (reraise_or_500 what)) w (drew_id n).
Proof.
  intros Hbody. apply wp_catch. eapply wp_mono; [exact Hbody|].
  cbn beta. intros [payload|e] w1 Hr; [exact Hr|].
  destruct e; cbn [reraise_or_500]; wp_steps; count_leaf.
Qed.

Ltac count_io :=
  lazymatch goal with
  | |- drew_id _ _ _ => count_leaf
  | |- wp (try_finally _ (cleanup_temp _ _ _)) _ (drew_id _) =>
      apply drew_id_finally
  | |- wp (catch _ (reraise_or_500 _)) _ (drew_id _) => apply drew_id_catch
  | |- wp (read_upload _) _ _ =>
      apply wp_read_upload; [intros ? _|intros ? _]; wp_norm
  | |- wp (write_file _ _ _) _ _ =>
      apply wp_write_file; [|intros ?|intros ? ?]; wp_norm
  | |- wp (run_bands _ _ _) _ _ => apply wp_run_bands; intros ? _ ? _; wp_norm
  | |- wp (if ?b then _ else _) _ _ => destruct b eqn:?; wp_norm
  | |- bind_post _ _ ?r _ => destruct r as [[|]|] eqn:?; wp_norm
  | |- _ => wp_step
  end.

Lemma cut_body_drew_id env file s e temp n w :
  (n < uuid_count w)%nat → wp (cut_body env file s e temp) w (drew_id n).
Proof. intros Hw. unfold cut_body. repeat count_io. Qed.

Lemma fade_body_drew_id env file fade_type duration temp n w :
  (n < uuid_count w)%nat →
  wp (fade_body env file fade_type duration temp) w (drew_id n).
Proof. intros Hw. unfold fade_body. repeat count_io. Qed.

Lemma vocal_music_body_drew_id env file temp n w :
  (n < uuid_count w)%nat → wp (vocal_music_body env file temp) w (drew_id n).
Proof. intros Hw. unfold vocal_music_body. repeat count_io. Qed.

Lemma instruments_body_drew_id env file temp n w :
  (n < uuid_count w)%nat → wp (instruments_body env file temp) w (drew_id n).
Proof. intros Hw. unfold instruments_body. repeat count_io. Qed.

Lemma append_cancel_prefix p : ∀ a b, p +:+ a = p +:+ b → a = b.
Proof.
  induction p as [|c p IH]; intros a b; [by rewrite !append_empty|].
  rewrite !append_cons. intros [=H]. by apply IH.
Qed.

Lemma append_same_length u1 : ∀ u2 s1 s2,
  String.length u1 = String.length u2 → u1 +:+ s1 = u2 +:+ s2 → u1 = u2.
Proof.
  induction u1 as [|c u1 IH]; intros [|d u2] s1 s2; cbn [String.length];
    try discriminate; [reflexivity|].
  rewrite !append_cons. intros [=Hlen] [=-> H]. f_equal. by eapply IH.
Qed.

(** Two scratch paths are equal only for equal ids, whatever the suffixes
    of the uploads, once ids have one length. *)
Lemma scratch_path_ids env f1 f2 i j :
  String.length (uuid4 env i) = String.length (uuid4 env j) →
  scratch_path env f1 i = scratch_path env f2 j → uuid4 env i = uuid4 env j.
Proof.
  unfold scratch_path, path_join. intros Hlen H.
  do 3 apply append_cancel_prefix in H.
  by eapply append_same_length.
Qed.

Lemma drew_id_differs env file n bound (r : Result Payload) w' :
  (∀ i j, (i < j ≤ bound)%nat → uuid4 env i ≠ uuid4 env j) →
  (∀ i j, String.length (uuid4 env i) = String.length (uuid4 env j)) →
  drew_id n r w' → later_scratch_differs env file n bound r w'.
Proof.
  unfold drew_id, later_scratch_differs.
  intros Hfresh Hlen Hn _ file' m Hm Heq.
  apply (Hfresh n m); [lia|]. symmetry. eapply scratch_path_ids; [apply Hlen|exact Heq].
Qed.

Ltac not_written :=
  unfold later_scratch_differs; intros Hin; exfalso; cbn in Hin;
  intuition discriminate.

(** X9: a request to an upload endpoint that wrote its scratch file has
    used up the unique id the path is built from.  So, as long as the ids
    drawn up to [bound] are pairwise distinct and of one length, no request
    that starts after it gets the same scratch path, whatever file it
    uploads: one request cannot overwrite or unlink the scratch input of
    another. *)
Theorem scratch_paths_not_reused (env : Env) (store : FS) (n bound : nat) :
  (∀ i j, (i < j ≤ bound)%nat → uuid4 env i ≠ uuid4 env j) →
  (∀ i j, String.length (uuid4 env i) = String.length (uuid4 env j)) →
  (∀ file s e,
     wp (cut_audio env file s e) (start store n)
        (later_scratch_differs env file n bound))
  ∧ (∀ file fade_type duration,
       wp (apply_fade env file fade_type duration) (start store n)
          (later_scratch_differs env file n bound))
  ∧ (∀ file,
       wp (separate_vocal_music env file) (start store n)
          (later_scratch_differs env file n bound))
  ∧ (∀ file,
       wp (separate_instruments env file) (start store n)
          (later_scratch_differs env file n bound)).
Proof.
  intros Hfresh Hlen.
  assert (∀ file (m : M Payload) w,
            wp m w (drew_id n) → wp m w (later_scratch_differs env file n bound))
    as Hdrew.
  { intros file m w H. eapply wp_mono; [exact H|].
    intros r w'. by apply drew_id_differs. }
  refine (conj _ (conj _ (conj _ _))); intros.
  - unfold cut_audio. wp_step. wp_step. wp_step. wp_step.
    destruct (engine_available env store) as [[|]|]; wp_norm;
      [|wp_step; not_written|not_written].
    destruct (PrimFloat.leb e s); [wp_step; not_written|].
    destruct (PrimFloat.ltb s PrimFloat.zero); [wp_step; not_written|].
    wp_step. wp_step. apply Hdrew. apply drew_id_finally, drew_id_catch.
    apply cut_body_drew_id. cbn. lia.
  - unfold apply_fade. wp_step. wp_step. wp_step. wp_step.
    destruct (engine_available env store) as [[|]|]; wp_norm;
      [|wp_step; not_written|not_written].
    destruct (negb _); [wp_step; not_written|].
    destruct (PrimFloat.leb duration PrimFloat.zero); [wp_step; not_written|].
    wp_step. wp_step. apply Hdrew. apply drew_id_finally, drew_id_catch.
    apply fade_body_drew_id. cbn. lia.
  - unfold separate_vocal_music. wp_step. wp_step. wp_step. wp_step.
    destruct (engine_available env store) as [[|]|]; wp_norm;
      [|wp_step; not_written|not_written].
    wp_step. wp_step. apply Hdrew. apply drew_id_finally, drew_id_catch.
    apply vocal_music_body_drew_id. cbn. lia.
  - unfold separate_instruments. wp_step. wp_step. wp_step. wp_step.
    destruct (engine_available env store) as [[|]|]; wp_norm;
      [|wp_step; not_written|not_written].
    wp_step. wp_step. apply Hdrew. apply drew_id_finally, drew_id_catch.
    apply instruments_body_drew_id. cbn. lia.
Qed.

Lemma demo_uuid_distinct i j : (i < j ≤ 100)%nat → demo_uuid i ≠ demo_uuid j.
Proof.
  intros Hij [=H]. apply (f_equal nat_of_ascii) in H.
  rewrite !nat_ascii_embedding in H by lia. lia.
Qed.

Lemma scratch_paths_not_reused_witness :
  let env := demo_env tool_working in
  let out := cut_audio env demo_file 1 3 (start ∅ 0) in
  In (EvWrite (scratch_path env demo_file 0)) (trace out.2)
  ∧ uuid_count out.2 = 2%nat
  ∧ scratch_path env demo_file_unreadable 2 ≠ scratch_path env demo_file 0.
Proof.
  cbv zeta.
  pose proof (proj1 (scratch_paths_not_reused (demo_env tool_working) ∅ 0 100
                       demo_uuid_distinct (λ _ _, eq_refl))
                demo_file 1%float 3%float) as H.
  unfold wp, later_scratch_differs in H.
  assert (In (EvWrite (scratch_path (demo_env tool_working) demo_file 0))
            (trace (cut_audio (demo_env tool_working) demo_file 1 3 (start ∅ 0)).2))
    as Hwrote by (vm_compute; auto 10).
  assert (uuid_count (cut_audio (demo_env tool_working) demo_file 1 3 (start ∅ 0)).2
          = 2%nat) as Hcount by (vm_compute; reflexivity).
  split; [exact Hwrote|]. split; [exact Hcount|].
  apply (H Hwrote). rewrite Hcount. lia.
Defined.

(** ** The active set *)

Lemma filter_nil_iff {A} (f : A → bool) (l : list A) :
  List.filter f l = [] ↔ ∀ x, In x l → f x = false.
Proof.
  induction l as [|a l IH]; cbn [List.filter In]; [tauto|].
  destruct (f a) eqn:Hfa; split.
  - discriminate.
  - intros H. specialize (H a (or_introl eq_refl)). congruence.
  - intros H x [<-|Hx]; [exact Hfa|by apply IH].
  - intros H. apply IH. auto.
Qed.

Lemma active_tracks_nil_silent (ts : list TrackData) :
  active_tracks ts = [] → ∀ t, In t ts → solo t = false ∧ muted t = true.
Proof.
  unfold active_tracks, solo_tracks.
  destruct (List.filter solo ts) as [|s0 srest] eqn:Hsolo; [|discriminate].
  pose proof (proj1 (filter_nil_iff _ _) Hsolo) as Hnone.
  rewrite filter_nil_iff. intros H t Ht. split; [by apply Hnone|].
  specialize (H t Ht). by destruct (muted t).
Qed.

Lemma silent_active_tracks_nil (ts : list TrackData) :
  (∀ t, In t ts → solo t = false ∧ muted t = true) → active_tracks ts = [].
Proof.
  intros H. rewrite active_tracks_without_solo by (intros t Ht; apply (H t Ht)).
  apply filter_nil_iff. intros t Ht. destruct (H t Ht) as [_ ->]. reflexivity.
Qed.

(** X10: the active set of a track list is empty exactly when no track is
    soloed and every track is muted; in particular it is empty for the empty
    list, and never empty once a track is soloed, muted or not. *)
Theorem active_set_empty_iff (ts : list TrackData) :
  active_tracks ts = [] ↔ ∀ t, In t ts → solo t = false ∧ muted t = true.
Proof.
  unfold active_tracks, solo_tracks.
  destruct (List.filter solo ts) as [|s0 srest] eqn:Hsolo.
  - pose proof (proj1 (filter_nil_iff _ _) Hsolo) as Hnone.
    rewrite filter_nil_iff. split.
    + intros H t Ht. split; [by apply Hnone|].
      specialize (H t Ht). by destruct (muted t).
    + intros H t Ht. destruct (H t Ht) as [_ ->]. reflexivity.
  - split; [discriminate|]. intros H. exfalso.
    assert (In s0 (List.filter solo ts)) as Hin by (rewrite Hsolo; left; reflexivity).
    apply List.filter_In in Hin as [Hin Hs]. destruct (H s0 Hin). congruence.
Qed.

(** X11: solo wins over mute.  A soloed track of the list is in the active
    set even when it is also muted, and once any track is soloed every
    active track is a soloed one. *)
Theorem solo_overrides_mute (ts : list TrackData) (t : TrackData) :
  In t ts → solo t = true →
  In t (active_tracks ts)
  ∧ ∀ other, In other (active_tracks ts) → solo other = true.
Proof.
  intros Hin Hsolo.
  rewrite (active_tracks_with_solo ts) by eauto.
  split; [by apply List.filter_In|].
  intros other Ho. by apply List.filter_In in Ho as [_ ?].
Qed.

Lemma solo_overrides_mute_witness :
  let ts := [demo_track "/uploads/1.wav" false false;
             demo_track "/uploads/2.wav" true true] in
  In (demo_track "/uploads/2.wav" true true) (active_tracks ts)
  ∧ ∀ other, In other (active_tracks ts) → solo other = true.
Proof.
  intros ts.
  exact (solo_overrides_mute ts (demo_track "/uploads/2.wav" true true)
           (or_intror (or_introl eq_refl)) eq_refl).
Defined.

(** X12: with an engine, a mix export is answered 400 "No active tracks to
    export" exactly when no track of the request is soloed and all of them
    are muted. *)
Theorem export_mix_rejects_exactly_silent_sets (env : Env) (store : FS) (n : nat)
    (request : ExportMixRequest) :
  engine_available env store = Returns true →
  wp (export_mix env request) (start store n) (λ r w',
    r = Raises (HTTPException 400 "No active tracks to export")
    ↔ ∀ t, In t (tracks request) → solo t = false ∧ muted t = true).
Proof.
  intros Hprobe.
  destruct (active_tracks (tracks request)) as [|t rest] eqn:Hact.
  - eapply wp_mono; [by apply export_mix_no_active|].
    cbn beta. intros r w' (-> & _). split; [|reflexivity].
    intros _. by apply active_tracks_nil_silent.
  - assert (¬ ∀ t0, In t0 (tracks request) → solo t0 = false ∧ muted t0 = true)
      as Hsome.
    { intros Hall. apply silent_active_tracks_nil in Hall. congruence. }
    eapply wp_mono; [by eapply export_mix_run|].
    cbn beta. intros r w'. destruct (bool_decide _).
    + intros (_ & _ & ->). unfold export_response. split; [|tauto].
      destruct (exit_ok _); [destruct (missing_or_empty _ _)|]; discriminate.
    + intros (-> & _). split; [discriminate|tauto].
Qed.

Lemma export_mix_rejects_exactly_silent_sets_witness :
  let request :=
    {| tracks := [demo_track "/uploads/1.wav" true false;
                  demo_track "/uploads/2.wav" true false];
       mix_format := "mp3"; mix_quality := "high" |} in
  (export_mix (demo_env tool_working) request (start ∅ 0)).1
  = Raises (HTTPException 400 "No active tracks to export").
Proof.
  intros request.
  apply (export_mix_rejects_exactly_silent_sets (demo_env tool_working) ∅ 0 request
           eq_refl).
  intros t [<-|[<-|[]]]; split; reflexivity.
Defined.

(** ** Track URLs that name no mount *)

Lemma prefix_split p : ∀ s, String.prefix p s = true → ∃ rest, s = p +:+ rest.
Proof.
  induction p as [|a p IH]; intros s; [by exists s|].
  destruct s as [|b s]; cbn [String.prefix]; [discriminate|].
  destruct (ascii_dec a b) as [->|]; [|discriminate].
  intros H. destruct (IH s H) as [rest ->]. by exists rest.
Qed.

Lemma replace_from_absent old new : ∀ s,
  no_occurrence old s → replace_from 0 old new s = s.
Proof.
  induction s as [|a s IH]; intros Hno; [reflexivity|].
  cbn [replace_from].
  destruct (String.prefix old (String a s)) eqn:Hp.
  - apply prefix_split in Hp as [rest Hrest]. exfalso.
    apply (Hno "" rest). rewrite append_empty. exact Hrest.
  - rewrite IH; [reflexivity|].
    intros before after ->. apply (Hno (String a before) after). reflexivity.
Qed.

Lemma occurs_false pattern : ∀ s, occurs pattern s = false → no_occurrence pattern s.
Proof.
  induction s as [|a s IH]; cbn [occurs]; intros H before after Heq;
    apply orb_false_iff in H as [Hp Hrest].
  - destruct before as [|b before].
    + rewrite append_empty in Heq. rewrite Heq, prefix_append in Hp. discriminate.
    + rewrite append_cons in Heq. discriminate.
  - destruct before as [|b before].
    + rewrite append_empty in Heq. rewrite Heq, prefix_append in Hp. discriminate.
    + rewrite append_cons in Heq. injection Heq as _ Heq.
      by apply (IH Hrest before after).
Qed.

(** X13: [resolve_track_path] leaves a URL in which neither "/uploads/" nor
    "/outputs/" occurs exactly as it is: such a URL is taken as a file path
    as given, absolute or relative. *)
Theorem resolve_leaves_other_paths (track_url : string) :
  no_occurrence "/uploads/" track_url →
  no_occurrence "/outputs/" track_url →
  resolve_track_path track_url = track_url.
Proof.
  intros Hup Hout. unfold resolve_track_path, str_replace.
  rewrite (replace_from_absent "/uploads/" _ _ Hup).
  by rewrite (replace_from_absent "/outputs/" _ _ Hout).
Qed.

Lemma resolve_leaves_other_paths_witness :
  resolve_track_path "../private/tape.wav" = "../private/tape.wav".
Proof.
  exact (resolve_leaves_other_paths "../private/tape.wav"
           (occurs_false "/uploads/" "../private/tape.wav" eq_refl)
           (occurs_false "/outputs/" "../private/tape.wav" eq_refl)).
Defined.



(** ** /upload *)

Lemma wp_store_upload env p file w (Q : Result (list Byte.byte) → World → Prop) :
  (∀ content, upload_body file = inr content →
     open_write env p content (fs w) = WriteOk →
     Q (Returns content) (set_fs (<[p := content]> (fs w)) (record_event (EvWrite p) w))) →
  (∀ text, Q (Raises (PyException text)) (record_event (EvWrite p) w)) →
  (∀ written text,
     Q (Raises (PyException text))
       (set_fs (<[p := written]> (fs w)) (record_event (EvWrite p) w))) →
  wp (store_upload env p file) w Q.
Proof.
  intros Hok Hnone Hpart. unfold store_upload.
  destruct (upload_body file) as [text|content] eqn:Hbody.
  - unfold wp. cbv zeta.
    destruct (open_write env p [] (fs w)); cbn [fst snd];
      [apply Hpart|apply Hnone|apply Hpart].
  - apply wp_bind. unfold wp, write_file, bind_post. cbv zeta.
    destruct (open_write env p content (fs w)) eqn:Hopen; cbn [fst snd];
      [by apply Hok|apply Hnone|apply Hpart].
Qed.

(** X15: what an upload can do.  A request whose content type is absent or
    does not start with "audio/" is answered 400 with no effect at all: no
    id drawn, no file touched.  Any other request draws one id and does one
    thing to the store, the write of its target under the upload directory;
    it never spawns a process, so it does not depend on the engine, and it
    never unlinks.  Its response names the stored file, and every failure
    is an HTTP 500 "Failed to save file: ...". *)
Theorem upload_effects (env : Env) (store : FS) (n : nat)
    (content_type : option string) (file : UploadFile) :
  wp (upload_file env content_type file) (start store n) (λ r w',
    if not_audio content_type then
      r = Raises (HTTPException 400 "File must be an audio file")
      ∧ actions (trace w') = [] ∧ fs w' = store ∧ uuid_count w' = n
    else
      actions (trace w') = [EvWrite (upload_target env file n)]
      ∧ uuid_count w' = S n
      ∧ (∀ q, q ≠ upload_target env file n → fs w' !! q = store !! q)
      ∧ match r with
        | Returns response =>
            upload_id response = uuid4 env n
            ∧ upload_filename response = stored_name env file n
            ∧ upload_url response = "/uploads/" +:+ stored_name env file n
            ∧ fs w' !! upload_target env file n ≠ None
        | Raises e => ∃ text, e = save_failure text
        end).
Proof.
  unfold upload_file. wp_step. wp_step.
  destruct (not_audio content_type); wp_norm.
  { wp_step. wp_step. wp_step. auto. }
  wp_step. wp_step. wp_step. wp_step.
  change (path_join UPLOAD_DIR _) with (upload_target env file n).
  change (uuid4 env n +:+ upload_suffix env file) with (stored_name env file n).
  apply wp_store_upload; wp_norm.
  - intros content _ _. wp_step. wp_step. wp_step. trace_norm.
    refine (conj eq_refl (conj eq_refl (conj _ _))).
    + intros q Hq. by rewrite lookup_insert_ne.
    + cbn. rewrite lookup_insert_eq. auto.
  - intros text. wp_step. wp_step. wp_step. trace_norm.
    refine (conj eq_refl (conj eq_refl (conj _ _))); eauto.
  - intros written text. wp_step. wp_step. wp_step. trace_norm.
    refine (conj eq_refl (conj eq_refl (conj _ _))); [|eauto].
    intros q Hq. by rewrite lookup_insert_ne.
Qed.

(** X16: upload round trip.  When an audio upload is read and written
    without fault, the response gives the size of the body, and, the stored
    name holding no slash, resolving the response's URL with
    [resolve_track_path] gives the path of the stored file, at which the
    store holds exactly the uploaded bytes. *)
Theorem upload_round_trip (env : Env) (store : FS) (n : nat)
    (content_type : option string) (file : UploadFile) (content : list Byte.byte) :
  not_audio content_type = false →
  upload_body file = inr content →
  open_write env (upload_target env file n) content store = WriteOk →
  has_char "/" (stored_name env file n) = false →
  wp (upload_file env content_type file) (start store n) (λ r w',
    ∃ response, r = Returns response
      ∧ upload_size response = length content
      ∧ resolve_track_path (upload_url response) = upload_target env file n
      ∧ fs w' !! resolve_track_path (upload_url response) = Some content).
Proof.
  intros Haudio Hbody Hopen Hflat.
  unfold upload_file. wp_step. wp_step. rewrite Haudio.
  wp_step. wp_step. wp_step. wp_step.
  change (path_join UPLOAD_DIR _) with (upload_target env file n).
  change (uuid4 env n +:+ upload_suffix env file) with (stored_name env file n).
  unfold store_upload. rewrite Hbody.
  wp_step. apply wp_write_file_ok; [exact Hopen|]. wp_norm.
  wp_step. wp_step. wp_step. wp_step.
  eexists. split; [reflexivity|]. cbn [upload_size upload_url].
  destruct (resolve_flat_name _ Hflat) as [-> _].
  change ("uploads/" +:+ stored_name env file n) with (upload_target env file n).
  split; [reflexivity|]. split; [reflexivity|].
  cbn. by rewrite lookup_insert_eq.
Qed.

Lemma upload_round_trip_witness :
  wp (upload_file (demo_env tool_missing) (Some "audio/mpeg") demo_file) (start ∅ 0)
     (λ r w',
        ∃ response, r = Returns response
          ∧ upload_size response = 4%nat
          ∧ resolve_track_path (upload_url response) = "uploads/a-0000.mp3"
          ∧ fs w' !! resolve_track_path (upload_url response) = Some some_audio).
Proof.
  exact (upload_round_trip (demo_env tool_missing) ∅ 0 (Some "audio/mpeg") demo_file
           some_audio eq_refl eq_refl eq_refl eq_refl).
Defined.

(** X17: a failed upload is not cleaned up.  When the body cannot be read
    after the target was opened, or the write fails part way, the request is
    answered 500 "Failed to save file: <error>", and the file stays under
    the upload directory, empty in the first case and with the bytes written
    so far in the second: nothing unlinks it. *)
Theorem failed_upload_leaves_file (env : Env) (store : FS) (n : nat)
    (content_type : option string) (file : UploadFile)
    (written : list Byte.byte) (text : string) :
  not_audio content_type = false →
  (upload_body file = inl text ∧ written = []
   ∧ (∀ t, open_write env (upload_target env file n) [] store
           ≠ WriteFailsBeforeCreate t))
  ∨ (∃ content, upload_body file = inr content
       ∧ open_write env (upload_target env file n) content store
         = WriteFailsAfterCreate written text) →
  wp (upload_file env content_type file) (start store n) (λ r w',
    r = Raises (save_failure text)
    ∧ fs w' !! upload_target env file n = Some written
    ∧ actions (trace w') = [EvWrite (upload_target env file n)]).
Proof.
  intros Haudio Hfail.
  unfold upload_file. wp_step. wp_step. rewrite Haudio.
  wp_step. wp_step. wp_step. wp_step.
  change (path_join UPLOAD_DIR _) with (upload_target env file n).
  unfold store_upload.
  destruct Hfail as [(Hbody & -> & Hopen)|(content & Hbody & Hopen)]; rewrite Hbody.
  - unfold wp at 1. cbv zeta. wp_norm.
    destruct (open_write env (upload_target env file n) [] store) eqn:E;
      [|by destruct (Hopen text0)|]; cbn [fst snd]; wp_norm.
    + wp_step. wp_step. wp_step. trace_norm.
      split; [reflexivity|]. split; [|reflexivity]. cbn. by rewrite lookup_insert_eq.
    + wp_step. wp_step. wp_step. trace_norm.
      split; [reflexivity|]. split; [|reflexivity]. cbn. by rewrite lookup_insert_eq.
  - wp_step. unfold wp at 1, write_file. cbv zeta. wp_norm. rewrite Hopen.
    cbn [fst snd]. wp_norm. wp_step. wp_step. wp_step. trace_norm.
    split; [reflexivity|]. split; [|reflexivity]. cbn. by rewrite lookup_insert_eq.
Qed.

Lemma failed_upload_leaves_file_witness :
  wp (upload_file (demo_env tool_working) (Some "audio/mpeg") demo_file_unreadable)
     (start ∅ 0)
     (λ r w',
        r = Raises (HTTPException 500 "Failed to save file: ClientDisconnect")
        ∧ fs w' !! "uploads/a-0000.mp3" = Some []
        ∧ actions (trace w') = [EvWrite "uploads/a-0000.mp3"]).
Proof.
  apply (failed_upload_leaves_file (demo_env tool_working) ∅ 0 (Some "audio/mpeg")
           demo_file_unreadable [] "ClientDisconnect" eq_refl).
  left. split; [reflexivity|]. split; [reflexivity|]. discriminate.
Defined.



(** ** The first active track, on a concrete list *)

Lemma first_active_in_input_order_witness :
  let ts := [demo_track "/uploads/1.wav" true false;
             demo_track "/uploads/2.wav" false false;
             demo_track "/uploads/3.wav" false false] in
  ∃ before after,
    ts = (before ++ demo_track "/uploads/2.wav" false false :: after)%list
    ∧ Forall (λ x, ¬ In x (active_tracks ts)) before.
Proof.
  intros ts.
  exact (first_active_in_input_order ts (demo_track "/uploads/2.wav" false false)
           [demo_track "/uploads/3.wav" false false] eq_refl).
Defined.
